(** * MCP SQL assistant: tool backend, request dispatcher, process host and
      client proxy

    A shallow embedding of [tools/sql_tools.py], [server/mcp_server.py] and
    the [MCPSQLClient] class of [client/client_module.py], with the
    properties of the protocol and of the process life cycle proved on it.

    Conventions.
    - A Python [str] is a [string]; each character stands for one code point
      below 256.
    - A Python exception is a value of [exn]; code that may raise returns an
      [outcome].  Only instances of [Exception] are modelled, which is what
      every [except Exception] of the source catches.
    - What the database, the clock, the pipes and the child process do is not
      decided by this code: it is read from an explicit environment. *)

From Stdlib Require Import String Ascii List Bool Arith ZArith Lia.
From Stdlib Require Import DecimalString.
Import ListNotations.
Open Scope list_scope.
Open Scope string_scope.

(** ** Python strings *)

Module PyStr.

(** [str.isspace] on one code point below 256: TAB..CR, FS..US, SPACE,
    NEL (0x85) and NBSP (0xa0). *)
Definition is_space (c : ascii) : bool :=
  let n := nat_of_ascii c in
  (Nat.leb 9 n && Nat.leb n 13) || (Nat.leb 28 n && Nat.leb n 32)
  || Nat.eqb n 133 || Nat.eqb n 160.

Fixpoint lstrip (s : string) : string :=
  match s with
  | EmptyString => EmptyString
  | String c r => if is_space c then lstrip r else s
  end.

Fixpoint rstrip (s : string) : string :=
  match s with
  | EmptyString => EmptyString
  | String c r =>
      match rstrip r with
      | EmptyString => if is_space c then EmptyString else String c EmptyString
      | r' => String c r'
      end
  end.

(** [s.strip()] *)
Definition strip (s : string) : string := lstrip (rstrip s).

(** [s.startswith(p)] *)
Definition startswith (p s : string) : bool := String.prefix p s.

(** [needle in hay] *)
Fixpoint contains (needle hay : string) : bool :=
  String.prefix needle hay
  || match hay with
     | EmptyString => false
     | String _ r => contains needle r
     end.

(** [s.split(sep)] for a one-character separator: never the empty list. *)
Fixpoint split (sep : ascii) (s : string) : list string :=
  match s with
  | EmptyString => [EmptyString]
  | String c r =>
      if Ascii.eqb c sep then EmptyString :: split sep r
      else match split sep r with
           | h :: t => String c h :: t
           | [] => [String c EmptyString]
           end
  end.

(** [sep.join(parts)] *)
Fixpoint join (sep : string) (parts : list string) : string :=
  match parts with
  | [] => EmptyString
  | [p] => p
  | p :: rest => p ++ sep ++ join sep rest
  end.

(** Truthiness of a [str]. *)
Definition nonempty (s : string) : bool :=
  match s with EmptyString => false | _ => true end.

Definition LF : string := String (ascii_of_nat 10) EmptyString.
Definition TAB : ascii := ascii_of_nat 9.
Definition NL : ascii := ascii_of_nat 10.

(** [l[-n:]] for [n > 0]. *)
Definition last_n {A} (n : nat) (l : list A) : list A :=
  skipn (length l - n) l.

End PyStr.

(** ** Exceptions and outcomes *)

(** An instance of [Exception]: its class name and [str(e)]. *)
Record exn := Exn { exn_class : string; exn_msg : string }.

Inductive outcome (A : Type) : Type :=
| Returns (a : A)
| Raises (e : exn).
Arguments Returns {A} a.
Arguments Raises {A} e.

(** [except cls]: every modelled exception is an [Exception]; otherwise the
    handler takes the exceptions of its own class. *)
Definition isinstance_exn (e : exn) (cls : string) : bool :=
  (cls =? "Exception") || (exn_class e =? cls).

(** ** Code that reads and writes a state and may raise *)

Module Eff.

Definition M (S A : Type) : Type := S -> outcome A * S.

Definition ret {S A} (a : A) : M S A := fun s => (Returns a, s).

Definition bind {S A B} (c : M S A) (k : A -> M S B) : M S B :=
  fun s =>
    match c s with
    | (Returns a, s') => k a s'
    | (Raises e, s') => (Raises e, s')
    end.

(** A computation that does not touch the state. *)
Definition lift {S A} (o : outcome A) : M S A := fun s => (o, s).

(** The [except] clauses of a [try], in order: the first whose class takes
    the exception runs; with none, the exception goes on. *)
Fixpoint handle {S A} (clauses : list (string * (exn -> M S A))) (e : exn)
  : M S A :=
  match clauses with
  | [] => fun s => (Raises e, s)
  | (cls, handler) :: rest =>
      if isinstance_exn e cls then handler e else handle rest e
  end.

(** [try: body except ...] *)
Definition try_except {S A} (body : M S A)
    (clauses : list (string * (exn -> M S A))) : M S A :=
  fun s =>
    match body s with
    | (Returns a, s') => (Returns a, s')
    | (Raises e, s') => handle clauses e s'
    end.

End Eff.

Notation "x <- c ;; k" := (Eff.bind c (fun x => k))
  (at level 61, c at next level, right associativity).

(** ** Decoded JSON values *)

Module PyObj.
Import PyStr.

(** What [json.loads] builds.  A float is carried by its [repr]; a dict is
    its items in insertion order. *)
#[warnings="-register-all"]
Inductive pyobj :=
| PNone
| PBool (b : bool)
| PInt (z : Z)
| PFloat (repr : string)
| PStr (s : string)
| PList (items : list pyobj)
| PDict (items : list (string * pyobj)).

(** [type(v).__name__] *)
Definition type_name (v : pyobj) : string :=
  match v with
  | PNone => "NoneType"
  | PBool _ => "bool"
  | PInt _ => "int"
  | PFloat _ => "float"
  | PStr _ => "str"
  | PList _ => "list"
  | PDict _ => "dict"
  end.

(** [d.get(key)] on the items of a dict. *)
Fixpoint lookup (key : string) (items : list (string * pyobj))
  : option pyobj :=
  match items with
  | [] => None
  | (k, v) :: rest => if k =? key then Some v else lookup key rest
  end.

Definition hex_digit (n : nat) : ascii :=
  if Nat.ltb n 10 then ascii_of_nat (48 + n) else ascii_of_nat (87 + n).

(** [str.isprintable] on one code point below 256. *)
Definition is_printable (c : ascii) : bool :=
  let n := nat_of_ascii c in
  (Nat.leb 32 n && Nat.leb n 126) || (Nat.leb 161 n && negb (Nat.eqb n 173)).

(** One character of [repr(s)] inside the quote [q]. *)
Definition repr_char (q c : ascii) : string :=
  let n := nat_of_ascii c in
  if Ascii.eqb c q || Ascii.eqb c "\"%char then String "\"%char (String c "")
  else if Nat.eqb n 9 then "\t"
  else if Nat.eqb n 10 then "\n"
  else if Nat.eqb n 13 then "\r"
  else if is_printable c then String c ""
  else String "\"%char
         (String "x"%char
            (String (hex_digit (n / 16)) (String (hex_digit (n mod 16)) ""))).

Fixpoint repr_chars (q : ascii) (s : string) : string :=
  match s with
  | EmptyString => EmptyString
  | String c r => repr_char q c ++ repr_chars q r
  end.

(** [repr(s)] of a [str]: single quotes unless the text has a single quote
    and no double quote. *)
Definition repr_str (s : string) : string :=
  let double := ascii_of_nat 34 in
  let q := if contains "'" s && negb (contains (String double "") s)
           then double else "'"%char in
  String q (repr_chars q s ++ String q "").

Definition repr_int (z : Z) : string :=
  NilZero.string_of_int (Z.to_int z).

(** [repr(v)] *)
Fixpoint py_repr (v : pyobj) : string :=
  match v with
  | PNone => "None"
  | PBool true => "True"
  | PBool false => "False"
  | PInt z => repr_int z
  | PFloat r => r
  | PStr s => repr_str s
  | PList items => "[" ++ join ", " (map py_repr items) ++ "]"
  | PDict items =>
      "{" ++ join ", "
               (map (fun kv => repr_str (fst kv) ++ ": " ++ py_repr (snd kv))
                    items)
          ++ "}"
  end.

(** [str(v)], which is also what an f-string prints. *)
Definition py_str (v : pyobj) : string :=
  match v with
  | PStr s => s
  | _ => py_repr v
  end.

(** Truthiness. *)
Definition truthy (v : pyobj) : bool :=
  match v with
  | PNone => false
  | PBool b => b
  | PInt z => negb (Z.eqb z 0)
  | PFloat r => negb ((r =? "0.0") || (r =? "-0.0"))
  | PStr s => nonempty s
  | PList items => match items with [] => false | _ => true end
  | PDict items => match items with [] => false | _ => true end
  end.

(** The value is a [str]. *)
Definition is_str (v : pyobj) : Prop := exists s, v = PStr s.

(** [str(x)] for what may be [None]. *)
Definition str_of_optional (x : option string) : string :=
  match x with
  | Some s => s
  | None => "None"
  end.

Definition AttributeError (v : pyobj) (attr : string) : exn :=
  Exn "AttributeError"
      ("'" ++ type_name v ++ "' object has no attribute '" ++ attr ++ "'").

Definition KeyError (key : string) : exn :=
  Exn "KeyError" (repr_str key).

Definition TypeError (msg : string) : exn := Exn "TypeError" msg.

(** [obj.get(key, default)] *)
Definition py_get (obj : pyobj) (key : string) (default : pyobj)
  : outcome pyobj :=
  match obj with
  | PDict items =>
      match lookup key items with
      | Some v => Returns v
      | None => Returns default
      end
  | _ => Raises (AttributeError obj "get")
  end.

(** [obj[key]] for a [str] key. *)
Definition py_getitem (obj : pyobj) (key : string) : outcome pyobj :=
  match obj with
  | PDict items =>
      match lookup key items with
      | Some v => Returns v
      | None => Raises (KeyError key)
      end
  | PStr _ => Raises (TypeError "string indices must be integers, not 'str'")
  | PList _ =>
      Raises (TypeError "list indices must be integers or slices, not str")
  | _ => Raises (TypeError ("'" ++ type_name obj
                                ++ "' object is not subscriptable"))
  end.

(** [key in obj] for a [str] key: a key of a dict, a substring of a str, an
    element of a list. *)
Definition py_contains (key : string) (obj : pyobj) : outcome bool :=
  match obj with
  | PDict items =>
      Returns (match lookup key items with Some _ => true | None => false end)
  | PStr s => Returns (contains key s)
  | PList items =>
      Returns (existsb (fun x => match x with
                                 | PStr s => s =? key
                                 | _ => false
                                 end) items)
  | _ => Raises (TypeError ("argument of type '" ++ type_name obj
                                ++ "' is not iterable"))
  end.

End PyObj.

(** ** The tool backend ([tools/sql_tools.py]) *)

Module Backend.
Import PyStr.

(** One element of [executed_queries]. *)
Record entry := Entry {
  e_query : string;
  e_result : string;
  e_timestamp : string
}.

(** The fields of a [SQLQueryTool] that its methods read and write. *)
Record SQLQueryTool := Tool {
  db_uri : string;
  executed_queries : list entry;
  last_query : option string;
  last_result : option string
}.

(** What the database layer answers to one call of a langchain tool's
    [run], and what the clock reads at that moment. *)
Record reply := Reply {
  answer : outcome string;
  stamp : string
}.

(** The database as the backend sees it: the [n]-th call made to it gets the
    [n]-th reply. *)
Definition database := nat -> reply.

(** The backend object together with the number of database calls made so
    far. *)
Record world := World {
  sql_tool : SQLQueryTool;
  tick : nat
}.

(** [SQLQueryTool.__init__] after a successful connection test. *)
Definition init (uri : string) : world :=
  World (Tool uri [] None None) 0.

Section WithDatabase.

Variable db : database.

(** [SQLQueryTool.run_query] *)
Definition run_query (query : string) (w : world) : string * world :=
  let self := sql_tool w in
  let q := strip query in
  let r := db (tick w) in
  match answer r with
  | Returns result =>
      let appended :=
        (executed_queries self ++ [Entry q result (stamp r)])%list in
      let kept :=
        if Nat.ltb 10 (length appended) then last_n 10 appended else appended in
      (result,
       World (Tool (db_uri self) kept (Some q) (Some result)) (S (tick w)))
  | Raises e =>
      let error_msg := "Error executing query: " ++ exn_msg e in
      (error_msg,
       World (Tool (db_uri self) (executed_queries self)
                   (Some q) (Some error_msg))
             (S (tick w)))
  end.

(** [SQLQueryTool.get_table_info]: the answer of [InfoSQLDatabaseTool.run]. *)
Definition get_table_info (table_name : string) (w : world)
  : string * world :=
  let w' := World (sql_tool w) (S (tick w)) in
  match answer (db (tick w)) with
  | Returns result => (result, w')
  | Raises e => ("Error getting table info: " ++ exn_msg e, w')
  end.

(** [SQLQueryTool.get_all_tables]: the answer of [ListSQLDatabaseTool.run]. *)
Definition get_all_tables (w : world) : string * world :=
  let w' := World (sql_tool w) (S (tick w)) in
  match answer (db (tick w)) with
  | Returns result => (result, w')
  | Raises e => ("Error getting table list: " ++ exn_msg e, w')
  end.

(** The [for line in lines] loop of [generate_table_ddl]: it stops at the
    first line that mentions CREATE TABLE and takes its second
    tab-separated field, if there is one. *)
Fixpoint find_create_statement (lines : list string) : string :=
  match lines with
  | [] => EmptyString
  | line :: rest =>
      if contains "CREATE TABLE" line then
        match split TAB line with
        | _ :: part1 :: _ => part1
        | _ => EmptyString
        end
      else find_create_statement rest
  end.

(** [SQLQueryTool.generate_table_ddl] *)
Definition generate_table_ddl (table_name : string) (w : world)
  : string * world :=
  let query := "SHOW CREATE TABLE " ++ table_name in
  let (result, w') := run_query query w in
  if contains "CREATE TABLE" result then
    let create_statement := find_create_statement (split NL result) in
    if nonempty create_statement then
      ("-- DDL for table: " ++ table_name ++ LF ++ create_statement ++ ";",
       w')
    else (result, w')
  else (result, w').

(** The table names that [generate_database_schema] reads from the table
    list: the stripped lines that are not empty and are not the header. *)
Fixpoint parse_table_names (lines : list string) : list string :=
  match lines with
  | [] => []
  | line :: rest =>
      let line' := strip line in
      if nonempty line' && negb (startswith "Database Tables" line')
      then line' :: parse_table_names rest
      else parse_table_names rest
  end.

(** The [for table_name in table_names] loop of
    [generate_database_schema]. *)
Fixpoint append_table_ddls (table_names : list string) (schema_ddl : string)
    (w : world) : string * world :=
  match table_names with
  | [] => (schema_ddl, w)
  | table_name :: rest =>
      if nonempty table_name then
        let (ddl, w') := generate_table_ddl table_name w in
        append_table_ddls rest (schema_ddl ++ LF ++ ddl ++ LF) w'
      else append_table_ddls rest schema_ddl w
  end.

(** [SQLQueryTool.generate_database_schema]; [None] is the default
    argument. *)
Definition generate_database_schema (database_name : option string)
    (w : world) : string * world :=
  let database_name :=
    match database_name with
    | Some n => if nonempty n then n
                else last (split "/"%char (db_uri (sql_tool w))) EmptyString
    | None => last (split "/"%char (db_uri (sql_tool w))) EmptyString
    end in
  let schema_ddl :=
    "-- Complete Database Schema for: " ++ database_name ++ LF
    ++ "-- Generated DDL Statements" ++ LF ++ LF in
  let (tables_result, w1) := get_all_tables w in
  append_table_ddls (parse_table_names (split NL tables_result))
                    schema_ddl w1.

End WithDatabase.

(** [SQLQueryTool.get_last_query]: the values under 'query' and
    'result'. *)
Definition get_last_query (w : world) : option string * option string :=
  (last_query (sql_tool w), last_result (sql_tool w)).

(** [SQLQueryTool.get_query_history] *)
Definition get_query_history (w : world) : list entry :=
  executed_queries (sql_tool w).

(** A session of [run_query] calls, in call order. *)
Fixpoint run_queries (db : database) (queries : list string) (w : world)
  : world :=
  match queries with
  | [] => w
  | q :: rest => run_queries db rest (snd (run_query db q w))
  end.

(** The entries of the calls of a session that the database answered
    without raising, in call order; [n] is the number of database calls made
    before the session. *)
Fixpoint answered (db : database) (n : nat) (queries : list string)
  : list entry :=
  match queries with
  | [] => []
  | q :: rest =>
      match answer (db n) with
      | Returns result =>
          Entry (strip q) result (stamp (db n)) :: answered db (S n) rest
      | Raises _ => answered db (S n) rest
      end
  end.

(** The introspection output [raw] parses to the clause [stmt], in the
    reading that [generate_table_ddl] makes of it: [stmt] is the second
    tab-separated field, not empty, of the first line of [raw] that mentions
    CREATE TABLE.  Nothing in this reading makes [stmt] itself a
    CREATE TABLE statement. *)
Definition parses_to (raw stmt : string) : Prop :=
  exists before line after field0 fields,
    split NL raw = (before ++ line :: after)%list
    /\ Forall (fun l => contains "CREATE TABLE" l = false) before
    /\ contains "CREATE TABLE" line = true
    /\ split TAB line = field0 :: stmt :: fields
    /\ stmt <> EmptyString.

(** An introspection output in the form that the parsing expects: the
    table name, a tab, the statement. *)
Definition show_create_inventory : string :=
  "inventory" ++ String TAB "CREATE TABLE inventory (id int)".

(** An introspection output that mentions CREATE TABLE in its first
    field only. *)
Definition show_create_misleading : string :=
  "CREATE TABLE" ++ String TAB "DROP DATABASE shop".

(** A database whose every call raises. *)
Definition failing_db (msg : string) : database :=
  fun _ => Reply (Raises (Exn "OperationalError" msg)) "".

(** A database that answers every call with the same text. *)
Definition constant_db (text : string) : database :=
  fun _ => Reply (Returns text) "2024-01-01 00:00:00,000".

Section OtherOperations.

Variable db : database.

(** The [for line in table_lines] loop of [get_schema_info]; the header
    test is made on the line as it is, not on the stripped line. *)
Fixpoint append_table_infos (lines : list string) (schema_info : string)
    (w : world) : string * world :=
  match lines with
  | [] => (schema_info, w)
  | line :: rest =>
      if nonempty (strip line) && negb (startswith "Database Tables" line)
      then
        let table_name := strip line in
        if nonempty table_name then
          let (table_info, w') := get_table_info db table_name w in
          append_table_infos rest
            (schema_info ++ LF ++ "--- " ++ table_name ++ " ---" ++ LF
               ++ table_info ++ LF)
            w'
        else append_table_infos rest schema_info w
      else append_table_infos rest schema_info w
  end.

(** [SQLQueryTool.get_schema_info] *)
Definition get_schema_info (w : world) : string * world :=
  let (tables, w1) := get_all_tables db w in
  let schema_info :=
    "Database Tables:" ++ LF ++ tables ++ LF ++ LF ++ "Table Schemas:" ++ LF in
  append_table_infos (split NL tables) schema_info w1.

(** [SQLQueryTool.create_table_like] *)
Definition create_table_like (source_table new_table : string) (w : world)
  : string * world :=
  let query := "CREATE TABLE " ++ new_table ++ " LIKE " ++ source_table in
  let (result, w') := run_query db query w in
  ("Table '" ++ new_table ++ "' created successfully with structure like '"
     ++ source_table ++ "'",
   w').

(** The query text of [get_all_tables_detailed_info]. *)
Definition detailed_info_query (database_name : string) : string :=
  LF ++ "            SELECT " ++ LF
  ++ "                TABLE_NAME," ++ LF
  ++ "                TABLE_ROWS," ++ LF
  ++ "                DATA_LENGTH," ++ LF
  ++ "                INDEX_LENGTH," ++ LF
  ++ "                CREATE_TIME," ++ LF
  ++ "                UPDATE_TIME," ++ LF
  ++ "                ENGINE," ++ LF
  ++ "                TABLE_COLLATION" ++ LF
  ++ "            FROM INFORMATION_SCHEMA.TABLES " ++ LF
  ++ "            WHERE TABLE_SCHEMA = '" ++ database_name ++ "'" ++ LF
  ++ "            ORDER BY TABLE_NAME" ++ LF
  ++ "            ".

(** [SQLQueryTool.get_all_tables_detailed_info]; [None] is the default
    argument. *)
Definition get_all_tables_detailed_info (database_name : option string)
    (w : world) : string * world :=
  let database_name :=
    match database_name with
    | Some n => if nonempty n then n
                else last (split "/"%char (db_uri (sql_tool w))) EmptyString
    | None => last (split "/"%char (db_uri (sql_tool w))) EmptyString
    end in
  let (result, w') := run_query db (detailed_info_query database_name) w in
  ("Detailed Table Information for database '" ++ database_name ++ "':"
     ++ LF ++ result,
   w').

(** The [for table_name in table_names] loop of
    [export_database_structure]. *)
Fixpoint append_table_data (table_names : list string)
    (export_script : string) (w : world) : string * world :=
  match table_names with
  | [] => (export_script, w)
  | table_name :: rest =>
      if nonempty table_name then
        let data_query := "SELECT * FROM " ++ table_name ++ " LIMIT 100" in
        let (data_result, w') := run_query db data_query w in
        append_table_data rest
          (export_script ++ LF ++ "-- Data for table: " ++ table_name ++ LF
             ++ "-- Query: " ++ data_query ++ LF
             ++ data_result ++ LF)
          w'
      else append_table_data rest export_script w
  end.

(** [SQLQueryTool.export_database_structure] *)
Definition export_database_structure (include_data : bool) (w : world)
  : string * world :=
  let export_script :=
    "-- Database Export Script" ++ LF
    ++ "-- Connection: " ++ db_uri (sql_tool w) ++ LF
    ++ "-- " ++ String.concat "" (repeat "=" 50) ++ LF ++ LF in
  let (schema_ddl, w1) := generate_database_schema db None w in
  let export_script := export_script ++ schema_ddl in
  if include_data then
    let export_script :=
      export_script ++ LF ++ "-- DATA EXPORT" ++ LF
      ++ "-- " ++ String.concat "" (repeat "=" 30) ++ LF ++ LF in
    let (tables_result, w2) := get_all_tables db w1 in
    append_table_data (parse_table_names (split NL tables_result))
                      export_script w2
  else (export_script, w1).

End OtherOperations.

(** The history is within its bound. *)
Definition bounded (w : world) : Prop :=
  length (executed_queries (sql_tool w)) <= 10.

(** The texts that [generate_table_ddl] returns for the tables of a list,
    one call after the other, skipping empty names. *)
Fixpoint table_ddls (db : database) (table_names : list string) (w : world)
  : list string :=
  match table_names with
  | [] => []
  | table_name :: rest =>
      if nonempty table_name then
        let (ddl, w') := generate_table_ddl db table_name w in
        ddl :: table_ddls db rest w'
      else table_ddls db rest w
  end.

(** The name that [generate_database_schema] puts in its header. *)
Definition effective_database_name (database_name : option string)
    (w : world) : string :=
  match database_name with
  | Some n => if nonempty n then n
              else last (split "/"%char (db_uri (sql_tool w))) EmptyString
  | None => last (split "/"%char (db_uri (sql_tool w))) EmptyString
  end.

End Backend.

(** ** The wire *)

Module Wire.
Import PyObj.

(** One line of text, by what [json.loads] makes of it: [Encoded v] is a
    text that decodes to [v]; [Malformed text why] is a text on which
    [json.loads] raises a [JSONDecodeError] whose message is [why]. *)
Inductive wire :=
| Malformed (text : string) (why : string)
| Encoded (v : pyobj).

(** [json.loads(line)] *)
Definition json_loads (line : wire) : outcome pyobj :=
  match line with
  | Malformed _ why => Raises (Exn "JSONDecodeError" why)
  | Encoded v => Returns v
  end.

(** [line.strip()] is not empty; a text that decodes is never blank. *)
Definition not_blank (line : wire) : bool :=
  match line with
  | Malformed text _ => PyStr.nonempty (PyStr.strip text)
  | Encoded _ => true
  end.

End Wire.

(** ** The request dispatcher and the process host
       ([server/mcp_server.py]) *)

Module Server.
Import PyStr PyObj Wire Eff.

(** The process host: the backend object of the module, the lines printed
    on standard output (each kept as the object handed to [json.dumps]) and
    the messages sent to [logger.error] by the methods of [FastMCP]. *)
Record host := Host {
  backend : Backend.world;
  stdout : list pyobj;
  errors : list string
}.

(** A registered tool: called with the arguments mapping of the request, it
    returns a string or raises, and may change the backend. *)
Definition tool := pyobj -> Backend.world -> outcome string * Backend.world.

(** Code of the host that may raise. *)
Definition M := Eff.M host.

(** [print(json.dumps(response))] *)
Definition print (response : pyobj) : M unit :=
  fun h => (Returns tt, Host (backend h) (stdout h ++ [response])%list
                             (errors h)).

(** [logger.error(msg)] *)
Definition log_error (msg : string) : M unit :=
  fun h => (Returns tt, Host (backend h) (stdout h)
                             (errors h ++ [msg])%list).

(** The call of [self.tools[tool_name]] on the unpacked [args]. *)
Definition call (f : tool) (args : pyobj) : M string :=
  fun h =>
    let (r, w) := f args (backend h) in
    (r, Host w (stdout h) (errors h)).

(** [tool_name in self.tools], with the tool when it is there: the keys of
    [self.tools] are strings, and a list or a dict cannot be hashed. *)
Definition find_tool (tools : list (string * tool)) (tool_name : pyobj)
  : outcome (option tool) :=
  match tool_name with
  | PStr name =>
      Returns (option_map snd
                 (find (fun kv => fst kv =? name) tools))
  | PList _ | PDict _ =>
      Raises (TypeError ("unhashable type: '" ++ type_name tool_name ++ "'"))
  | _ => Returns None
  end.

(** [method == 'tools/call'] *)
Definition is_tools_call (method : pyobj) : bool :=
  match method with
  | PStr m => m =? "tools/call"
  | _ => false
  end.

(** The response built when the tool returned [result]. *)
Definition result_response (id : pyobj) (result : string) : pyobj :=
  PDict [("jsonrpc", PStr "2.0");
         ("id", id);
         ("result",
          PDict [("content",
                  PList [PDict [("type", PStr "text");
                                ("text", PStr result)]])])].

(** The response built when the tool is not registered. *)
Definition not_found_response (id : pyobj) (tool_name : pyobj) : pyobj :=
  PDict [("jsonrpc", PStr "2.0");
         ("id", id);
         ("error",
          PDict [("code", PInt (-1));
                 ("message",
                  PStr ("Tool " ++ py_str tool_name ++ " not found"))])].

Section Dispatcher.

(** [self.tools], in registration order. *)
Variable tools : list (string * tool).

(** The body of the [try] of [FastMCP.process_request]. *)
Definition process_request_body (request_line : wire) : M unit :=
  request <- lift (json_loads request_line) ;;
  method <- lift (py_get request "method" (PStr "")) ;;
  if is_tools_call method then
    params <- lift (py_getitem request "params") ;;
    tool_name <- lift (py_getitem params "name") ;;
    args <- lift (py_get params "arguments" (PDict [])) ;;
    registered <- lift (find_tool tools tool_name) ;;
    response <-
      match registered with
      | Some f =>
          result <- call f args ;;
          id <- lift (py_get request "id" PNone) ;;
          ret (result_response id result)
      | None =>
          id <- lift (py_get request "id" PNone) ;;
          ret (not_found_response id tool_name)
      end ;;
    print response
  else ret tt.

(** [FastMCP.process_request] *)
Definition process_request (request_line : wire) : M unit :=
  try_except (process_request_body request_line)
    [("Exception",
      fun e => log_error ("Error processing request: " ++ exn_msg e))].

(** One turn of the [while True] loop of [FastMCP.run], for what [input()]
    gave: [None] leaves the loop. *)
Definition run_step (read : outcome wire) : M (option unit) :=
  try_except
    (line <- lift read ;;
     _ <- (if not_blank line then process_request line else ret tt) ;;
     ret (Some tt))
    [("EOFError", fun _ => ret None);
     ("Exception",
      fun e => _ <- log_error ("Error in server loop: " ++ exn_msg e) ;;
               ret (Some tt))].

(** [FastMCP.run] on the successive results of [input()]; when they are used
    up, standard input is at its end and [input()] raises [EOFError]. *)
Fixpoint run (stdin : list (outcome wire)) : M unit :=
  match stdin with
  | [] => ret tt
  | read :: rest =>
      continue <- run_step read ;;
      match continue with
      | Some _ => run rest
      | None => ret tt
      end
  end.

End Dispatcher.

(** [name in tools] for a name that is a string. *)
Definition registered (tools : list (string * tool)) (name : string) : bool :=
  existsb (fun kv => fst kv =? name) tools.

(** No result of [input()] in [stdin] is an [EOFError]. *)
Definition no_eof (stdin : list (outcome wire)) : bool :=
  forallb (fun read => match read with
                       | Returns _ => true
                       | Raises e => negb (isinstance_exn e "EOFError")
                       end) stdin.

(** How a tool function takes keyword arguments: it has no parameter, one
    required parameter, or one parameter that defaults to [None]. *)
Inductive parameter :=
| NoParameter
| Required (name : string)
| Optional (name : string).

Definition accepts (p : parameter) (key : string) : bool :=
  match p with
  | NoParameter => false
  | Required name | Optional name => key =? name
  end.

(** The binding done by the call [f] on the unpacked [args] for the
    function named [fname]: the value of the parameter ([None] for a
    default or for no parameter), or the [TypeError] of the call. *)
Definition bind_kwargs (fname : string) (p : parameter) (args : pyobj)
  : outcome pyobj :=
  match args with
  | PDict items =>
      match find (fun kv => negb (accepts p (fst kv))) items with
      | Some (key, _) =>
          Raises (TypeError (fname
                               ++ "() got an unexpected keyword argument '"
                               ++ key ++ "'"))
      | None =>
          match p with
          | NoParameter => Returns PNone
          | Required name =>
              match lookup name items with
              | Some v => Returns v
              | None =>
                  Raises (TypeError
                            (fname
                               ++ "() missing 1 required positional argument: '"
                               ++ name ++ "'"))
              end
          | Optional name =>
              match lookup name items with
              | Some v => Returns v
              | None => Returns PNone
              end
          end
      end
  | _ =>
      Raises (TypeError ("__main__." ++ fname
                           ++ "() argument after ** must be a mapping, not "
                           ++ type_name args))
  end.

Section Tools.

(** The database behind the module's [sql_tool]. *)
Variable db : Backend.database.

(** A tool function applied to unpacked arguments: bind, then run the
    body, which catches every exception and so always returns a string. *)
Definition tool_of (fname : string) (p : parameter)
    (body : pyobj -> Backend.world -> string * Backend.world) : tool :=
  fun args w =>
    match bind_kwargs fname p args with
    | Returns v => let (text, w') := body v w in (Returns text, w')
    | Raises e => (Raises e, w)
    end.

(** [run_query(query)].  A [query] that is not a [str] has no [strip]:
    [SQLQueryTool.run_query] raises [AttributeError] from its own handler
    before touching the object, and the tool function turns it into text. *)
Definition run_query : tool :=
  tool_of "run_query" (Required "query")
    (fun query w =>
       match query with
       | PStr q => Backend.run_query db q w
       | _ => ("Error executing query: "
                 ++ exn_msg (AttributeError query "strip"), w)
       end).

(** [get_table_info(table_name=None)] *)
Definition get_table_info : tool :=
  tool_of "get_table_info" (Optional "table_name")
    (fun table_name w =>
       if truthy table_name
       then Backend.get_table_info db (py_str table_name) w
       else Backend.get_all_tables db w).

(** [get_last_query()] *)
Definition get_last_query : tool :=
  tool_of "get_last_query" NoParameter
    (fun _ w =>
       let (query, result) := Backend.get_last_query w in
       ("Last Query: " ++ str_of_optional query ++ LF ++ LF
          ++ "Result: " ++ str_of_optional result, w)).

(** [generate_table_ddl(table_name)] *)
Definition generate_table_ddl : tool :=
  tool_of "generate_table_ddl" (Required "table_name")
    (fun table_name w =>
       Backend.generate_table_ddl db (py_str table_name) w).

(** [generate_database_schema(database_name=None)] *)
Definition generate_database_schema : tool :=
  tool_of "generate_database_schema" (Optional "database_name")
    (fun database_name w =>
       Backend.generate_database_schema db
         (if truthy database_name then Some (py_str database_name) else None)
         w).

(** [test_connection()] *)
Definition test_connection : tool :=
  tool_of "test_connection" NoParameter
    (fun _ w =>
       let (result, w') := Backend.run_query db "SELECT 1 as test" w in
       ("Connection successful: " ++ result, w')).

(** [mcp.tools] once the module is loaded. *)
Definition mcp_tools : list (string * tool) :=
  [("run_query", run_query);
   ("get_table_info", get_table_info);
   ("get_last_query", get_last_query);
   ("generate_table_ddl", generate_table_ddl);
   ("generate_database_schema", generate_database_schema);
   ("test_connection", test_connection)].

End Tools.

(** The parameter of each function that the module registers. *)
Definition parameter_of (name : string) : parameter :=
  if name =? "run_query" then Required "query"
  else if name =? "get_table_info" then Optional "table_name"
  else if name =? "generate_table_ddl" then Required "table_name"
  else if name =? "generate_database_schema" then Optional "database_name"
  else NoParameter.

(** The host when the script starts: [sql_tool] is connected, the
    connection test of the main block has run, no line is read yet. *)
Definition start (db : Backend.database) (uri : string) : host :=
  let (_, w) := test_connection db (PDict []) (Backend.init uri) in
  Host w [] [].

End Server.

(** ** The client proxy ([MCPSQLClient] in [client/client_module.py]) *)

Module Client.
Import PyStr PyObj Wire Eff.

(** What [readline] hands back: [b''] at the end of the stream, bytes that
    are text, or bytes that [decode] rejects with the message [why]. *)
Inductive received :=
| NoData
| Text (line : wire)
| NotText (why : string).

(** What the pipes of the child do during one call: [drain] raises or not,
    and the bounded [readline] gives bytes or raises ([TimeoutError] when
    the bound expires). *)
Record exchange := Exchange {
  on_send : option exn;
  on_read : outcome received
}.

(** A call made on the process handle. *)
Inductive action :=
| Write (request : pyobj)
| ReadLine (timeout : Z)
| Terminate
| Wait (timeout : option Z)
| Kill.

(** An [asyncio.subprocess.Process].
    - [returncode]: as the attribute, [None] while the child is not known to
      have ended.
    - [released]: the transport has dropped the child (its [_proc] is
      [None]); it does so, and wakes the waiters of [wait()], once the
      child has ended and every pipe is disconnected.
    - [term_status]: the status with which the child ends within five
      seconds of SIGTERM, [None] if it does not.
    - [kill_status]: the status with which it ends on SIGKILL.
    - [pipes_close]: the pipes are disconnected as soon as the child has
      ended; they are not when output of the child stays unread in them.
    - [pipes], [exchanges]: what the pipes do at the [n]-th call, and the
      number of calls so far.
    - [trace]: the writes, reads and waits made on the handle and the
      signals sent to the child, oldest first. *)
Record subprocess := Subprocess {
  returncode : option Z;
  released : bool;
  term_status : option Z;
  kill_status : Z;
  pipes_close : bool;
  pipes : nat -> exchange;
  exchanges : nat;
  trace : list action
}.

Definition record (a : action) (p : subprocess) : subprocess :=
  Subprocess (returncode p) (released p) (term_status p) (kill_status p)
          (pipes_close p) (pipes p) (exchanges p) (trace p ++ [a])%list.

Definition next_exchange (p : subprocess) : subprocess :=
  Subprocess (returncode p) (released p) (term_status p) (kill_status p)
          (pipes_close p) (pipes p) (S (exchanges p)) (trace p).

(** The child has ended with status [rc] and the transport has let go of
    it. *)
Definition reaped (rc : Z) (p : subprocess) : subprocess :=
  Subprocess (Some rc) true (term_status p) (kill_status p)
          (pipes_close p) (pipes p) (exchanges p) (trace p).

(** The child has ended with status [rc], which the handle knows, but the
    transport still holds it. *)
Definition exited (rc : Z) (p : subprocess) : subprocess :=
  Subprocess (Some rc) (released p) (term_status p) (kill_status p)
          (pipes_close p) (pipes p) (exchanges p) (trace p).

Definition is_kill (a : action) : bool :=
  match a with Kill => true | _ => false end.

Definition is_terminate (a : action) : bool :=
  match a with Terminate => true | _ => false end.

(** The status with which the signals sent so far end the child, if they
    do. *)
Definition ends_with (p : subprocess) : option Z :=
  if existsb is_kill (trace p) then Some (kill_status p)
  else if existsb is_terminate (trace p) then term_status p
  else None.

Definition TimeoutError : exn := Exn "TimeoutError" "".
Definition ProcessLookupError : exn := Exn "ProcessLookupError" "".

(** [stdin.write(...)] and [await stdin.drain()] *)
Definition send (request : pyobj) : M subprocess unit :=
  fun p =>
    let p' := record (Write request) p in
    match on_send (pipes p (exchanges p)) with
    | Some e => (Raises e, next_exchange p')
    | None => (Returns tt, p')
    end.

(** [await asyncio.wait_for(stdout.readline(), timeout)] *)
Definition readline (timeout : Z) : M subprocess received :=
  fun p =>
    (on_read (pipes p (exchanges p)),
     next_exchange (record (ReadLine timeout) p)).

(** [response_line.decode()] *)
Definition decode (bytes : received) : outcome wire :=
  match bytes with
  | NoData => Returns (Malformed "" "Expecting value: line 1 column 1 (char 0)")
  | Text line => Returns line
  | NotText why => Raises (Exn "UnicodeDecodeError" why)
  end.

(** [Process.terminate]: the transport refuses once it has dropped the
    child; a child known to have ended is not signalled. *)
Definition terminate : M subprocess unit :=
  fun p =>
    if released p then (Raises ProcessLookupError, p)
    else match returncode p with
         | Some _ => (Returns tt, p)
         | None => (Returns tt, record Terminate p)
         end.

(** [Process.kill] *)
Definition kill : M subprocess unit :=
  fun p =>
    if released p then (Raises ProcessLookupError, p)
    else match returncode p with
         | Some _ => (Returns tt, p)
         | None => (Returns tt, record Kill p)
         end.

(** [await process.wait()], under [asyncio.wait_for] when [timeout] is
    given.  With the return code known it returns at once.  Otherwise the
    waiter is woken only when the child has ended and its pipes are
    disconnected; until then a bounded wait expires, with the return code
    known by then if the child has ended, and a wait without bound does not
    return, which is the result [None]. *)
Definition wait (timeout : option Z) (p : subprocess)
  : option (outcome Z * subprocess) :=
  let p' := record (Wait timeout) p in
  match returncode p with
  | Some rc => Some (Returns rc, p')
  | None =>
      match ends_with p with
      | Some rc =>
          if pipes_close p then Some (Returns rc, reaped rc p')
          else match timeout with
               | Some _ => Some (Raises TimeoutError, exited rc p')
               | None => None
               end
      | None =>
          match timeout with
          | Some _ => Some (Raises TimeoutError, p')
          | None => None
          end
      end
  end.

(** The dict that [call_tool] returns: the values under 'error' and
    'result'. *)
Record envelope := Envelope {
  error : bool;
  result : pyobj
}.

Definition failure (payload : string) : envelope :=
  Envelope true (PStr payload).

Definition success (payload : pyobj) : envelope :=
  Envelope false payload.

(** The request of [call_tool]. *)
Definition make_request (tool_name : string) (parameters : pyobj) : pyobj :=
  PDict [("jsonrpc", PStr "2.0");
         ("id", PInt 1);
         ("method", PStr "tools/call");
         ("params",
          PDict [("name", PStr tool_name); ("arguments", parameters)])].

(** [call_tool] from [response = json.loads(...)] on, with the response
    decoded. *)
Definition read_response (response : pyobj) : outcome envelope :=
  match py_contains "error" response with
  | Raises e => Raises e
  | Returns true =>
      match py_getitem response "error" with
      | Raises e => Raises e
      | Returns err => Returns (failure (py_str err))
      end
  | Returns false =>
      match py_get response "result" (PDict []) with
      | Raises e => Raises e
      | Returns res =>
          match res with
          | PDict items =>
              match lookup "content" items with
              | Some content =>
                  match content with
                  | PList (first :: _) =>
                      match py_get first "text" (PStr "") with
                      | Raises e => Raises e
                      | Returns text => Returns (success text)
                      end
                  | _ => Returns (success (PStr (py_str content)))
                  end
              | None => Returns (success (PStr (py_str res)))
              end
          | _ => Returns (success (PStr (py_str res)))
          end
      end
  end.

(** The body of the outer [try] of [call_tool]. *)
Definition call_tool_body (request : pyobj) : M subprocess envelope :=
  _ <- send request ;;
  read <- try_except
            (response_line <- readline 30 ;; ret (inr response_line))
            [("TimeoutError", fun _ => ret (inl (failure "Request timeout")))] ;;
  match read with
  | inl timed_out => ret timed_out
  | inr NoData => ret (failure "No response from server")
  | inr response_line =>
      text <- lift (decode response_line) ;;
      response <- lift (json_loads text) ;;
      lift (read_response response)
  end.

(** The fields of an [MCPSQLClient]. *)
Record MCPSQLClient := Client {
  server_script_path : string;
  process : option subprocess
}.

(** [MCPSQLClient.__init__] *)
Definition new (path : string) : MCPSQLClient := Client path None.

(** [MCPSQLClient.call_tool]; [parameters] is [None] by default. *)
Definition call_tool (tool_name : string) (parameters : option pyobj)
  : M MCPSQLClient envelope :=
  fun self =>
    match process self with
    | None => (Returns (failure "MCP server not started"), self)
    | Some p =>
        let parameters :=
          match parameters with Some d => d | None => PDict [] end in
        let (r, p') :=
          try_except (call_tool_body (make_request tool_name parameters))
            [("JSONDecodeError",
              fun _ => ret (failure "Invalid response from server"));
             ("Exception", fun e => ret (failure (exn_msg e)))] p in
        (r, Client (server_script_path self) (Some p'))
    end.

(** What happens when [start_server] launches the child: the script is not
    on disk, the spawn raises, or there is a child, given as it is after the
    one-second pause. *)
Inductive launch :=
| ScriptMissing
| SpawnRaises (e : exn)
| Spawned (p : subprocess).

(** [MCPSQLClient.start_server] *)
Definition start_server (l : launch) : M MCPSQLClient bool :=
  try_except
    (fun self =>
       match l with
       | ScriptMissing => (Returns false, self)
       | SpawnRaises e => (Raises e, self)
       | Spawned p =>
           let self' := Client (server_script_path self) (Some p) in
           match returncode p with
           | Some _ => (Returns false, self')
           | None => (Returns true, self')
           end
       end)
    [("Exception", fun _ => ret false)].

(** Code on the handle that may also never return. *)
Definition blocking (A : Type) : Type :=
  subprocess -> option (outcome A * subprocess).

Definition now {A} (c : M subprocess A) : blocking A := fun p => Some (c p).

Definition and_then {A B} (c : blocking A) (k : A -> blocking B)
  : blocking B :=
  fun p =>
    match c p with
    | None => None
    | Some (Returns a, p') => k a p'
    | Some (Raises e, p') => Some (Raises e, p')
    end.

(** [try: body except cls: handler] *)
Definition rescue {A} (body : blocking A) (cls : string)
    (handler : blocking A) : blocking A :=
  fun p =>
    match body p with
    | Some (Raises e, p') =>
        if isinstance_exn e cls then handler p' else Some (Raises e, p')
    | r => r
    end.

(** The [try] statement of [close]. *)
Definition close_process : blocking unit :=
  rescue
    (and_then (now terminate) (fun _ =>
     and_then (wait (Some 5%Z)) (fun _ =>
     now (ret tt))))
    "TimeoutError"
    (and_then (now kill) (fun _ =>
     and_then (wait None) (fun _ =>
     now (ret tt)))).

(** [MCPSQLClient.close]; [None] when it never returns. *)
Definition close (self : MCPSQLClient)
  : option (outcome unit * MCPSQLClient) :=
  match process self with
  | None => Some (Returns tt, self)
  | Some p =>
      match close_process p with
      | None => None
      | Some (r, p') => Some (r, Client (server_script_path self) (Some p'))
      end
  end.


(** The handlers of the outer [try] of [call_tool], on an exception. *)
Definition failure_of (e : exn) : envelope :=
  if isinstance_exn e "JSONDecodeError"
  then failure "Invalid response from server"
  else failure (exn_msg e).

(** A running child on which no call was made yet: every exchange on its
    pipes goes as [x], SIGTERM ends it, or not, as [term] says, and its
    pipes are disconnected when it ends. *)
Definition live_child (x : exchange) (term : option Z) : subprocess :=
  Subprocess None false term (-9)%Z true (fun _ => x) 0 [].

(** A running child like [live_child], but with so much unread output in
    its pipes that they are not disconnected when it ends. *)
Definition clogged_child (x : exchange) (term : option Z) : subprocess :=
  Subprocess None false term (-9)%Z false (fun _ => x) 0 [].

(** A child that has exited with status 1 before the end of the pause of
    [start_server]: the transport has dropped it, and [drain] finds the
    connection lost. *)
Definition dead_child : subprocess :=
  Subprocess (Some 1%Z) true None (-9)%Z true
    (fun _ => Exchange (Some (Exn "ConnectionResetError" "Connection lost"))
                       (Returns NoData))
    0 [].

(** The response line of a server, decoded. *)
Definition answers (response : pyobj) : exchange :=
  Exchange None (Returns (Text (Encoded response))).

(** [s.rstrip(';')] *)
Fixpoint rstrip_semicolons (s : string) : string :=
  match s with
  | EmptyString => EmptyString
  | String c r =>
      match rstrip_semicolons r with
      | EmptyString =>
          if Ascii.eqb c ";"%char then EmptyString else String c EmptyString
      | r' => String c r'
      end
  end.

(** The clean-up loop of [GroqLLMClient.extract_sql_queries], on the list
    [queries] of the code blocks and pattern matches found in the text;
    [cleaned_queries] is the list built so far. *)
Fixpoint clean_queries (queries cleaned_queries : list string)
  : list string :=
  match queries with
  | [] => cleaned_queries
  | query :: rest =>
      let query := strip query in
      if nonempty query && Nat.ltb 10 (String.length query) then
        let query := strip (rstrip_semicolons query) in
        if existsb (String.eqb query) cleaned_queries
        then clean_queries rest cleaned_queries
        else clean_queries rest (cleaned_queries ++ [query])%list
      else clean_queries rest cleaned_queries
  end.

End Client.

(** * Properties *)

(** ** Facts about strings and lists *)

Module PyStrFacts.
Import PyStr.

Lemma append_assoc (a b c : string) : (a ++ b) ++ c = a ++ (b ++ c).
Proof. induction a as [|x a IH]; simpl; [reflexivity | now rewrite IH]. Qed.

Lemma append_empty_r (a : string) : a ++ "" = a.
Proof. induction a as [|x a IH]; simpl; [reflexivity | now rewrite IH]. Qed.

Lemma prefix_iff (p s : string) :
  String.prefix p s = true <-> exists rest, s = p ++ rest.
Proof.
  revert s. induction p as [|c p IH]; intros s.
  - split; [intros _; now exists s | now destruct s].
  - destruct s as [|d s]; simpl.
    + split; [discriminate | intros [rest H]; discriminate].
    + destruct (Ascii.ascii_dec c d) as [-> | Hne].
      * rewrite IH. split; intros [rest H]; exists rest; congruence.
      * split; [discriminate | intros [rest H]; congruence].
Qed.

(** [needle in hay] holds exactly when [hay] has [needle] somewhere. *)
Lemma contains_iff (needle hay : string) :
  contains needle hay = true <-> exists a b, hay = a ++ needle ++ b.
Proof.
  induction hay as [|c hay IH]; cbn [contains].
  - rewrite orb_false_r, prefix_iff. split.
    + intros [rest H]. now exists "", rest.
    + intros [a [b H]]. destruct a; [now exists b | discriminate].
  - rewrite orb_true_iff, prefix_iff, IH. split.
    + intros [[rest H] | [a [b H]]].
      * now exists "", rest.
      * exists (String c a), b. simpl. now rewrite H.
    + intros [a [b H]]. destruct a as [|d a]; simpl in H.
      * left. now exists b.
      * right. exists a, b. congruence.
Qed.

Lemma contains_inside (needle a s b : string) :
  contains needle s = true -> contains needle (a ++ s ++ b) = true.
Proof.
  rewrite !contains_iff. intros [x [y ->]].
  exists (a ++ x), (y ++ b). now rewrite !append_assoc.
Qed.

Lemma split_not_nil (sep : ascii) (s : string) : split sep s <> [].
Proof.
  induction s as [|c s IH]; simpl; [discriminate|].
  destruct (Ascii.eqb c sep); [discriminate|].
  destruct (split sep s); [contradiction | discriminate].
Qed.

(** The first field is a prefix of the text. *)
Lemma split_head (sep : ascii) (s h : string) (t : list string) :
  split sep s = h :: t -> exists rest, s = h ++ rest.
Proof.
  revert h t. induction s as [|c s IH]; simpl; intros h t H.
  - injection H as <- _. now exists "".
  - destruct (Ascii.eqb c sep).
    + injection H as <- _. now exists (String c s).
    + destruct (split sep s) as [|h' t'] eqn:E.
      * now destruct (split_not_nil sep s).
      * injection H as <- _. destruct (IH h' t' eq_refl) as [rest ->].
        now exists rest.
Qed.

(** Every field is a part of the text. *)
Lemma split_In (sep : ascii) (s l : string) :
  In l (split sep s) -> exists a b, s = a ++ l ++ b.
Proof.
  revert l. induction s as [|c s IH]; simpl; intros l H.
  - destruct H as [<- | []]. now exists "", "".
  - destruct (Ascii.eqb c sep).
    + destruct H as [<- | H].
      * now exists "", (String c s).
      * destruct (IH l H) as [a [b ->]]. now exists (String c a), b.
    + destruct (split sep s) as [|h t] eqn:E.
      * now destruct (split_not_nil sep s).
      * destruct H as [<- | H].
        -- destruct (split_head sep s h t E) as [rest ->].
           exists "", rest. reflexivity.
        -- destruct (IH l (or_intror H)) as [a [b ->]].
           now exists (String c a), b.
Qed.

Lemma contains_split (needle : string) (sep : ascii) (s l : string) :
  In l (split sep s) -> contains needle l = true -> contains needle s = true.
Proof.
  intros Hin Hl. destruct (split_In sep s l Hin) as [a [b ->]].
  now apply contains_inside.
Qed.

(** No field holds the separator. *)
Lemma split_no_sep (sep : ascii) (s l : string) :
  In l (split sep s) -> contains (String sep "") l = false.
Proof.
  revert l. induction s as [|c s IH]; cbn [split]; intros l H.
  - destruct H as [<- | []]. reflexivity.
  - destruct (Ascii.eqb c sep) eqn:E.
    + destruct H as [<- | H]; [reflexivity | now apply IH].
    + destruct (split sep s) as [|h t] eqn:Es;
        [now destruct (split_not_nil sep s)|].
      destruct H as [<- | H]; [|apply IH; now right].
      cbn [contains prefix]. rewrite (IH h (or_introl eq_refl)).
      destruct (ascii_dec sep c) as [-> | _]; [|reflexivity].
      now rewrite Ascii.eqb_refl in E.
Qed.

(** A text with at least two fields is its first field, the separator and
    the rest. *)
Lemma split_cons2 (sep : ascii) (s x y : string) (t : list string) :
  split sep s = x :: y :: t ->
  exists s', s = x ++ String sep s' /\ split sep s' = y :: t.
Proof.
  revert x. induction s as [|c s IH]; cbn [split]; intros x H;
    [discriminate|].
  destruct (Ascii.eqb c sep) eqn:E.
  - apply Ascii.eqb_eq in E. subst c. injection H as <- H. now exists s.
  - destruct (split sep s) as [|h t'] eqn:Es; [discriminate|].
    injection H as <- ->. destruct (IH h eq_refl) as (s' & -> & Hs').
    now exists s'.
Qed.

(** A text with one field is that field. *)
Lemma split_single (sep : ascii) (s y : string) :
  split sep s = [y] -> s = y.
Proof.
  revert y. induction s as [|c s IH]; cbn [split]; intros y H.
  - now injection H.
  - destruct (Ascii.eqb c sep).
    + injection H as _ H. now destruct (split_not_nil sep s).
    + destruct (split sep s) as [|h t] eqn:Es;
        [now destruct (split_not_nil sep s)|].
      injection H as <- ->. now rewrite (IH h eq_refl).
Qed.

(** A beginning that does not hold [c] cannot reach over a [c]. *)
Lemma prefix_before_sep (n u v : string) (c : ascii) :
  ~ In c (list_ascii_of_string n) ->
  String.prefix n (u ++ String c v) = true -> String.prefix n u = true.
Proof.
  revert u. induction n as [|a n IH]; intros u Hc H; [now destruct u|].
  destruct u as [|b u]; cbn [append prefix] in *.
  - destruct (ascii_dec a c) as [-> | _]; [|discriminate].
    destruct Hc. now left.
  - destruct (ascii_dec a b); [|discriminate].
    apply IH; [|exact H]. intros Hin. apply Hc. now right.
Qed.

(** A text without [c] that is found in [u], [c], [v] is found in [u] or in
    [v]. *)
Lemma contains_across_sep (n u v : string) (c : ascii) :
  n <> "" -> ~ In c (list_ascii_of_string n) ->
  contains n (u ++ String c v) = true ->
  contains n u = true \/ contains n v = true.
Proof.
  intros Hn Hc. induction u as [|b u IH]; cbn [append contains]; intros H.
  - apply orb_true_iff in H. destruct H as [H | H]; [|now right].
    destruct n as [|a n]; [congruence|]. cbn [prefix] in H.
    destruct (ascii_dec a c) as [-> | _]; [|discriminate].
    destruct Hc. now left.
  - apply orb_true_iff in H. destruct H as [H | H].
    + left. apply orb_true_iff. left.
      exact (prefix_before_sep n (String b u) v c Hc H).
    + destruct (IH H) as [Hu | Hv]; [|now right].
      left. apply orb_true_iff. now right.
Qed.

Lemma nonempty_iff (s : string) : nonempty s = true <-> s <> "".
Proof. destruct s; simpl; split; congruence. Qed.

Lemma last_n_all {A} (n : nat) (l : list A) :
  length l <= n -> last_n n l = l.
Proof.
  intros H. unfold last_n.
  replace (length l - n) with 0 by lia. reflexivity.
Qed.

Lemma last_n_length {A} (n : nat) (l : list A) :
  length (last_n n l) = Nat.min n (length l).
Proof. unfold last_n. rewrite length_skipn. lia. Qed.

Lemma last_n_app_last_n {A} (n : nat) (l m : list A) :
  last_n n (last_n n l ++ m) = last_n n (l ++ m).
Proof.
  destruct (Nat.le_gt_cases (length l) n) as [Hle | Hgt].
  - now rewrite (last_n_all n l Hle).
  - unfold last_n at 1 3.
    rewrite !length_app, last_n_length.
    replace (Nat.min n (length l) + length m - n) with (length m) by lia.
    replace (length l + length m - n) with (length m + (length l - n)) by lia.
    rewrite <- skipn_skipn. f_equal.
    unfold last_n. rewrite skipn_app.
    replace (length l - n - length l) with 0 by lia. reflexivity.
Qed.

Lemma last_n_app_r {A} (n : nat) (l m : list A) :
  n <= length m -> last_n n (l ++ m) = last_n n m.
Proof.
  intros H. unfold last_n. rewrite skipn_app, length_app.
  rewrite skipn_all2 by lia. simpl. f_equal. lia.
Qed.

Lemma last_n_map {A B} (f : A -> B) (n : nat) (l : list A) :
  map f (last_n n l) = last_n n (map f l).
Proof. unfold last_n. now rewrite skipn_map, length_map. Qed.

(** Dropping the oldest of ten and adding one. *)
Lemma last_n_push {A} (l : list A) (x : A) :
  length l = 10 -> last_n 10 (l ++ [x]) = (tl l ++ [x])%list.
Proof.
  intros H. unfold last_n. rewrite length_app, H. simpl.
  destruct l; [discriminate | reflexivity].
Qed.

End PyStrFacts.

(** ** The tool backend *)

Module BackendFacts.
Import PyStr PyStrFacts Backend.

(** The list kept by a call that the database answered. *)
Lemma kept_is_last_n (l : list entry) :
  (if Nat.ltb 10 (length l) then last_n 10 l else l) = last_n 10 l.
Proof.
  destruct (Nat.ltb_spec 10 (length l)); [reflexivity|].
  symmetry. apply last_n_all. lia.
Qed.

Lemma run_query_tick (db : database) (q : string) (w : world) :
  tick (snd (run_query db q w)) = S (tick w).
Proof. unfold run_query. now destruct (answer (db (tick w))). Qed.

(** One call, on a history within the bound. *)
Lemma run_query_history (db : database) (q : string) (w : world) :
  length (get_query_history w) <= 10 ->
  get_query_history (snd (run_query db q w)) =
  last_n 10 (get_query_history w ++ answered db (tick w) [q]).
Proof.
  intros Hw. unfold run_query, get_query_history in *. simpl.
  destruct (answer (db (tick w))) as [result | e]; simpl.
  - apply kept_is_last_n.
  - rewrite app_nil_r. symmetry. now apply last_n_all.
Qed.

Lemma run_queries_history (db : database) (qs : list string) (w : world) :
  length (get_query_history w) <= 10 ->
  get_query_history (run_queries db qs w) =
  last_n 10 (get_query_history w ++ answered db (tick w) qs).
Proof.
  revert w. induction qs as [|q qs IH]; intros w Hw.
  - simpl. rewrite app_nil_r. symmetry. now apply last_n_all.
  - cbn [run_queries]. rewrite IH.
    + rewrite run_query_tick, run_query_history by assumption.
      rewrite last_n_app_last_n, <- app_assoc. do 2 f_equal.
      simpl. now destruct (answer (db (tick w))).
    + rewrite run_query_history by assumption.
      rewrite last_n_length. lia.
Qed.

(** When the database answers every call, the entries are the stripped
    queries. *)
Lemma answered_all (db : database) (n : nat) (qs : list string) :
  (forall i, i < length qs -> exists r, answer (db (n + i)) = Returns r) ->
  map e_query (answered db n qs) = map strip qs.
Proof.
  revert n. induction qs as [|q qs IH]; intros n H; simpl; [reflexivity|].
  destruct (H 0 ltac:(simpl; lia)) as [r Hr].
  rewrite Nat.add_0_r in Hr. rewrite Hr. simpl. f_equal.
  apply IH. intros i Hi. replace (S n + i) with (n + S i) by lia.
  apply H. simpl. lia.
Qed.

(** C1, amended.  When the execution of a query raises, [run_query] returns
    the error text instead of raising and keeps the attempt as the last
    query with the error text as the last result; the execution history is
    left as it was. *)
Theorem run_query_failure_recorded_as_last (db : database) (query : string)
    (w : world) (e : exn) :
  answer (db (tick w)) = Raises e ->
  let msg := "Error executing query: " ++ exn_msg e in
  fst (run_query db query w) = msg
  /\ get_last_query (snd (run_query db query w))
     = (Some (strip query), Some msg)
  /\ get_query_history (snd (run_query db query w)) = get_query_history w.
Proof.
  intros H. unfold run_query. rewrite H. simpl. auto.
Qed.

Lemma run_query_failure_recorded_as_last_witness :
  let db := failing_db "table missing" in
  let w := init "mysql+pymysql://root:@localhost/mcp_proj1" in
  answer (db (tick w)) = Raises (Exn "OperationalError" "table missing")
  /\ fst (run_query db " SELECT * FROM nowhere " w)
     = "Error executing query: table missing"
  /\ get_last_query (snd (run_query db " SELECT * FROM nowhere " w))
     = (Some "SELECT * FROM nowhere",
        Some "Error executing query: table missing")
  /\ get_query_history (snd (run_query db " SELECT * FROM nowhere " w)) = [].
Proof.
  split; [reflexivity|].
  apply (run_query_failure_recorded_as_last
           (failing_db "table missing") " SELECT * FROM nowhere "
           (init "mysql+pymysql://root:@localhost/mcp_proj1")
           (Exn "OperationalError" "table missing")).
  reflexivity.
Defined.

(** C1 as stated fails: after a query whose execution raises, no entry of
    the execution history stores the returned error text. *)
Lemma run_query_failure_not_in_history :
  let db := failing_db "table missing" in
  let w := init "mysql+pymysql://root:@localhost/mcp_proj1" in
  let r := run_query db "SELECT * FROM nowhere" w in
  fst r = "Error executing query: table missing"
  /\ ~ (exists en, In en (get_query_history (snd r))
                   /\ e_result en = fst r).
Proof.
  split; [reflexivity|]. intros [en [Hin _]]. exact Hin.
Qed.

(** C4, amended.  From a history within the bound, a session of [run_query]
    calls leaves the ten most recent entries of the old history followed by
    the answered calls, stripped, in call order: never more than ten; exactly
    the ten most recent answered calls once more than ten were answered, and
    so the ten most recent queries when the database answered every call.
    An answered call on a full history drops its oldest entry. *)
Theorem history_keeps_last_ten_answered (db : database) (qs : list string)
    (w : world) :
  length (get_query_history w) <= 10 ->
  let h := get_query_history (run_queries db qs w) in
  let done := answered db (tick w) qs in
  h = last_n 10 (get_query_history w ++ done)
  /\ length h <= 10
  /\ (10 < length done -> length h = 10 /\ h = last_n 10 done)
  /\ ((forall i, i < length qs ->
         exists r, answer (db (tick w + i)) = Returns r) ->
      10 < length qs ->
      length h = 10 /\ map e_query h = last_n 10 (map strip qs))
  /\ (forall q r,
        length (get_query_history w) = 10 ->
        answer (db (tick w)) = Returns r ->
        get_query_history (snd (run_query db q w))
        = (tl (get_query_history w)
             ++ [Entry (strip q) r (stamp (db (tick w)))])%list).
Proof.
  intros Hw h done.
  assert (Hh : h = last_n 10 (get_query_history w ++ done))
    by now apply run_queries_history.
  assert (Hdone : 10 < length done -> length h = 10 /\ h = last_n 10 done).
  { intros Hd. rewrite Hh. split.
    - rewrite last_n_length, length_app. fold done. lia.
    - apply last_n_app_r. lia. }
  split; [exact Hh|]. split; [rewrite Hh, last_n_length; lia|].
  split; [exact Hdone|]. split.
  - intros Hall Hn.
    pose proof (answered_all db (tick w) qs Hall) as Hq. fold done in Hq.
    assert (Hlen : length done = length qs).
    { rewrite <- (length_map e_query done), Hq. apply length_map. }
    destruct Hdone as [H10 Hlast]; [lia|]. split; [exact H10|].
    now rewrite Hlast, last_n_map, Hq.
  - intros q r Hfull Hr.
    rewrite run_query_history by assumption. simpl. rewrite Hr.
    now apply last_n_push.
Qed.

Lemma history_keeps_last_ten_answered_witness :
  let db := constant_db "[(1,)]" in
  let qs := repeat " SELECT 1 " 12 in
  let w := init "mysql+pymysql://root:@localhost/mcp_proj1" in
  length (get_query_history w) <= 10
  /\ length (get_query_history (run_queries db qs w)) <= 10.
Proof.
  split; [simpl; lia|].
  exact (proj1 (proj2 (history_keeps_last_ten_answered
                         (constant_db "[(1,)]") (repeat " SELECT 1 " 12)
                         (init "mysql+pymysql://root:@localhost/mcp_proj1")
                         ltac:(simpl; lia)))).
Defined.

(** C4 as stated fails: after eleven [run_query] calls whose execution
    raises, the history does not hold ten entries, it holds none. *)
Lemma eleven_failed_queries_leave_no_history :
  let qs := repeat "SELECT * FROM nowhere" 11 in
  let w := run_queries (failing_db "table missing") qs
             (init "mysql+pymysql://root:@localhost/mcp_proj1") in
  length qs = 11
  /\ get_query_history w = []
  /\ length (get_query_history w) <> 10.
Proof.
  split; [reflexivity|]. split; [reflexivity|]. discriminate.
Qed.

(** The loop of [generate_table_ddl] finds the clause that the output
    parses to. *)
Lemma find_create_statement_found (before after : list string)
    (line field0 stmt : string) (fields : list string) :
  Forall (fun l => contains "CREATE TABLE" l = false) before ->
  contains "CREATE TABLE" line = true ->
  split TAB line = field0 :: stmt :: fields ->
  find_create_statement (before ++ line :: after) = stmt.
Proof.
  intros Hb Hl Hs. induction Hb as [|l before Hl0 _ IH]; cbn [find_create_statement app].
  - now rewrite Hl, Hs.
  - now rewrite Hl0.
Qed.

(** A clause that the loop finds is one that the output parses to. *)
Lemma find_create_statement_parses (lines : list string) :
  find_create_statement lines <> "" ->
  exists before line after field0 fields,
    lines = (before ++ line :: after)%list
    /\ Forall (fun l => contains "CREATE TABLE" l = false) before
    /\ contains "CREATE TABLE" line = true
    /\ split TAB line
        = field0 :: find_create_statement lines :: fields.
Proof.
  induction lines as [|l lines IH]; cbn [find_create_statement];
    [congruence|].
  destruct (contains "CREATE TABLE" l) eqn:E.
  - intros H. destruct (split TAB l) as [|f0 [|f1 fs]] eqn:Es;
      try congruence.
    exists [], l, lines, f0, fs. repeat split; auto.
  - intros H. destruct (IH H) as (b & ln & a & f0 & fs & -> & Hb & Hl & Hs).
    exists (l :: b), ln, a, f0, fs. repeat split; auto.
Qed.

Lemma parses_to_mentions_create (raw stmt : string) :
  parses_to raw stmt -> contains "CREATE TABLE" raw = true.
Proof.
  intros (b & l & a & f0 & fs & Hs & _ & Hl & _).
  apply (contains_split _ NL raw l); [|exact Hl].
  rewrite Hs. apply in_or_app. right. now left.
Qed.

(** A clause that the output parses to lies within one line. *)
Lemma parses_to_one_line (raw stmt : string) :
  parses_to raw stmt -> contains LF stmt = false.
Proof.
  intros (b & l & a & f0 & fs & Hs & _ & _ & Hf & _).
  assert (Hl : contains LF l = false).
  { apply (split_no_sep NL raw). rewrite Hs. apply in_or_app. right.
    now left. }
  destruct (contains LF stmt) eqn:E; [|reflexivity].
  rewrite <- Hl. symmetry. apply (contains_split LF TAB l stmt); [|exact E].
  rewrite Hf. right. now left.
Qed.

(** In a line of two fields that mentions CREATE TABLE, one of the fields
    does. *)
Lemma create_in_second_field (line field0 stmt : string) :
  split TAB line = [field0; stmt] ->
  contains "CREATE TABLE" line = true ->
  contains "CREATE TABLE" field0 = false ->
  contains "CREATE TABLE" stmt = true.
Proof.
  intros Hs Hl H0.
  destruct (split_cons2 TAB line field0 stmt [] Hs) as (s' & -> & Hs').
  apply split_single in Hs'. subst s'.
  destruct (contains_across_sep "CREATE TABLE" field0 stmt TAB) as [H | H];
    try assumption; try congruence; try discriminate.
  cbn. intros H. repeat destruct H as [H | H]; try discriminate H.
  exact H.
Qed.

(** C8, amended.  [generate_table_ddl] runs the introspection query through
    [run_query].  When the output has a first line mentioning CREATE TABLE
    whose second tab-separated field is not empty, the result is a comment
    line naming the table, then that field, then a semicolon; in every other
    case the result is the output unchanged.  The field lies within one
    line, so a statement that spans several lines is cut after its first;
    it mentions CREATE TABLE when the line has two fields of which the first
    does not, and need not otherwise. *)
Theorem generate_table_ddl_spec (db : database) (table_name : string)
    (w : world) :
  let raw := fst (run_query db ("SHOW CREATE TABLE " ++ table_name) w) in
  let ddl := fst (generate_table_ddl db table_name w) in
  (forall stmt, parses_to raw stmt ->
     ddl = "-- DDL for table: " ++ table_name ++ LF ++ stmt ++ ";"
     /\ startswith ("-- DDL for table: " ++ table_name ++ LF) ddl = true)
  /\ ((forall stmt, ~ parses_to raw stmt) -> ddl = raw)
  /\ snd (generate_table_ddl db table_name w)
     = snd (run_query db ("SHOW CREATE TABLE " ++ table_name) w)
  /\ (forall stmt, parses_to raw stmt -> contains LF stmt = false)
  /\ (forall before line after field0 stmt,
        split NL raw = (before ++ line :: after)%list ->
        Forall (fun l => contains "CREATE TABLE" l = false) before ->
        contains "CREATE TABLE" line = true ->
        split TAB line = [field0; stmt] ->
        contains "CREATE TABLE" field0 = false ->
        ddl = "-- DDL for table: " ++ table_name ++ LF ++ stmt ++ ";"
        /\ contains "CREATE TABLE" stmt = true).
Proof.
  intros raw ddl.
  assert (Hparsed : forall stmt, parses_to raw stmt ->
            ddl = "-- DDL for table: " ++ table_name ++ LF ++ stmt ++ ";").
  { subst raw ddl. unfold generate_table_ddl.
    destruct (run_query db ("SHOW CREATE TABLE " ++ table_name) w)
      as [raw w']. cbn [fst snd].
    intros stmt Hp. pose proof (parses_to_mentions_create _ _ Hp) as Hc.
    destruct Hp as (b & l & a & f0 & fs & Hs & Hb & Hl & Hf & Hne).
    rewrite Hc, Hs, (find_create_statement_found b a l f0 stmt fs Hb Hl Hf).
    apply nonempty_iff in Hne. now rewrite Hne. }
  split; [|split; [|split; [|split]]].
  - intros stmt Hp. split; [now apply Hparsed|].
    rewrite (Hparsed stmt Hp). apply prefix_iff. exists (stmt ++ ";").
    now rewrite !append_assoc.
  - subst raw ddl. unfold generate_table_ddl.
    destruct (run_query db ("SHOW CREATE TABLE " ++ table_name) w)
      as [raw w']. cbn [fst snd].
    intros Hno. destruct (contains "CREATE TABLE" raw) eqn:Hc; [|reflexivity].
    destruct (nonempty (find_create_statement (split NL raw))) eqn:Hn;
      [|reflexivity].
    exfalso. apply nonempty_iff in Hn.
    destruct (find_create_statement_parses _ Hn)
      as (b & l & a & f0 & fs & Hs & Hb & Hl & Hf).
    apply (Hno (find_create_statement (split NL raw))).
    exists b, l, a, f0, fs. repeat split; auto.
  - subst raw ddl. unfold generate_table_ddl.
    destruct (run_query db ("SHOW CREATE TABLE " ++ table_name) w)
      as [raw w']. cbn [fst snd].
    destruct (contains "CREATE TABLE" raw); [|reflexivity].
    now destruct (nonempty (find_create_statement (split NL raw))).
  - intros stmt. apply parses_to_one_line.
  - intros before line after field0 stmt Hs Hb Hl Hf H0.
    pose proof (create_in_second_field line field0 stmt Hf Hl H0) as Hc.
    split; [|exact Hc]. apply Hparsed.
    exists before, line, after, field0, []. repeat split; auto.
    intros ->. discriminate.
Qed.

Lemma generate_table_ddl_spec_witness :
  let w := init "mysql+pymysql://root:@localhost/mcp_proj1" in
  (parses_to show_create_inventory "CREATE TABLE inventory (id int)"
   /\ fst (generate_table_ddl (constant_db show_create_inventory)
                              "inventory" w)
      = "-- DDL for table: inventory" ++ LF
          ++ "CREATE TABLE inventory (id int);")
  /\ ((forall stmt, ~ parses_to "Error executing query: table missing" stmt)
      /\ fst (generate_table_ddl (failing_db "table missing") "inventory" w)
         = "Error executing query: table missing").
Proof.
  assert (Hp : parses_to show_create_inventory
                 "CREATE TABLE inventory (id int)").
  { exists [], show_create_inventory, [], "inventory", [].
    repeat split; try reflexivity; [constructor | discriminate]. }
  assert (Hn : forall stmt,
             ~ parses_to "Error executing query: table missing" stmt).
  { intros stmt H. apply parses_to_mentions_create in H. discriminate. }
  split; split; [exact Hp | | exact Hn |].
  - exact (proj1 (proj1 (generate_table_ddl_spec
                           (constant_db show_create_inventory) "inventory"
                           (init "mysql+pymysql://root:@localhost/mcp_proj1"))
                        _ Hp)).
  - exact (proj1 (proj2 (generate_table_ddl_spec
                           (failing_db "table missing") "inventory"
                           (init "mysql+pymysql://root:@localhost/mcp_proj1")))
                 Hn).
Defined.

(** C8 as stated fails: an output that parses, with CREATE TABLE in its
    first field only, gives a result that is not the output and in which no
    CREATE TABLE statement follows the comment line. *)
Lemma generate_table_ddl_without_create :
  let w := init "mysql+pymysql://root:@localhost/mcp_proj1" in
  let ddl := fst (generate_table_ddl (constant_db show_create_misleading)
                    "shop" w) in
  parses_to show_create_misleading "DROP DATABASE shop"
  /\ ddl = "-- DDL for table: shop" ++ LF ++ "DROP DATABASE shop;"
  /\ ddl <> show_create_misleading
  /\ contains "CREATE TABLE" ddl = false.
Proof.
  split; [|split; [reflexivity | split; [discriminate | reflexivity]]].
  exists [], show_create_misleading, [], "CREATE TABLE", [].
  repeat split; try reflexivity; [constructor | discriminate].
Qed.

End BackendFacts.

(** ** The request dispatcher and the process host *)

Module ServerFacts.
Import PyStr PyObj Wire Eff Server.

(** The names under which the module registers its tools. *)
Lemma mcp_tool_names (db : Backend.database) :
  map fst (mcp_tools db)
  = ["run_query"; "get_table_info"; "get_last_query"; "generate_table_ddl";
     "generate_database_schema"; "test_connection"].
Proof. reflexivity. Qed.

(** What [process_request] does with a well-formed call, by what the
    look-up of the tool and the tool give. *)
Lemma process_call (tools : list (string * tool))
    (items ps : list (string * pyobj)) (name : string) (h : host) :
  lookup "method" items = Some (PStr "tools/call") ->
  lookup "params" items = Some (PDict ps) ->
  lookup "name" ps = Some (PStr name) ->
  let id := match lookup "id" items with Some v => v | None => PNone end in
  let args := match lookup "arguments" ps with
              | Some v => v
              | None => PDict []
              end in
  process_request tools (Encoded (PDict items)) h =
  match option_map snd (find (fun kv => fst kv =? name) tools) with
  | None =>
      (Returns tt,
       Host (backend h) (stdout h ++ [not_found_response id (PStr name)])
            (errors h))
  | Some f =>
      match f args (backend h) with
      | (Returns text, w) =>
          (Returns tt,
           Host w (stdout h ++ [result_response id text]) (errors h))
      | (Raises e, w) =>
          (Returns tt,
           Host w (stdout h)
                (errors h ++ ["Error processing request: " ++ exn_msg e]))
      end
  end.
Proof.
  intros Hm Hp Hn id args.
  unfold process_request, process_request_body, try_except, bind, lift.
  cbn [json_loads py_get py_getitem]. rewrite Hm. cbn [is_tools_call].
  rewrite String.eqb_refl, Hp. cbn [py_getitem py_get]. rewrite Hn.
  cbn [find_tool]. subst id args.
  destruct (lookup "arguments" ps) as [a|];
    destruct (lookup "id" items) as [i|];
    (destruct (option_map snd (find (fun kv => fst kv =? name) tools))
       as [f|]; [unfold call|reflexivity]);
    match goal with
    | |- context [f ?x (backend h)] =>
        destruct (f x (backend h)) as [[text | e] w]; reflexivity
    end.
Qed.

(** C5.  A well-formed call that names a tool outside the registry makes
    the dispatcher print exactly one response, for the identifier of the
    request: it carries an error with code -1 and the message
    "Tool <name> not found", and no result.  The backend is not touched and
    nothing is logged. *)
Theorem unknown_tool_gets_error (tools : list (string * tool))
    (items ps : list (string * pyobj)) (name : string) (h : host) :
  lookup "method" items = Some (PStr "tools/call") ->
  lookup "params" items = Some (PDict ps) ->
  lookup "name" ps = Some (PStr name) ->
  registered tools name = false ->
  let id := match lookup "id" items with Some v => v | None => PNone end in
  let response := not_found_response id (PStr name) in
  process_request tools (Encoded (PDict items)) h
  = (Returns tt, Host (backend h) (stdout h ++ [response]) (errors h))
  /\ py_getitem response "error"
     = Returns (PDict [("code", PInt (-1));
                       ("message", PStr ("Tool " ++ name ++ " not found"))])
  /\ py_contains "result" response = Returns false
  /\ py_getitem response "id" = Returns id.
Proof.
  intros Hm Hp Hn Hr id response. split; [|repeat split].
  rewrite (process_call tools items ps name h Hm Hp Hn).
  unfold registered in Hr.
  destruct (find (fun kv => fst kv =? name) tools) as [kv|] eqn:E;
    [|reflexivity].
  apply find_some in E. destruct E as [Hin Hk].
  assert (existsb (fun kv => fst kv =? name) tools = true)
    by (apply existsb_exists; eauto).
  congruence.
Qed.

Lemma unknown_tool_gets_error_witness :
  let db := Backend.constant_db "[(1,)]" in
  let h := start db "mysql+pymysql://root:@localhost/mcp_proj1" in
  registered (mcp_tools db) "drop_table" = false
  /\ process_request (mcp_tools db)
       (Encoded (Client.make_request "drop_table" (PDict []))) h
     = (Returns tt,
        Host (backend h)
             [not_found_response (PInt 1) (PStr "drop_table")]
             (errors h)).
Proof.
  split; [reflexivity|].
  exact (proj1 (unknown_tool_gets_error
                  (mcp_tools (Backend.constant_db "[(1,)]"))
                  [("jsonrpc", PStr "2.0"); ("id", PInt 1);
                   ("method", PStr "tools/call");
                   ("params", PDict [("name", PStr "drop_table");
                                     ("arguments", PDict [])])]
                  [("name", PStr "drop_table"); ("arguments", PDict [])]
                  "drop_table"
                  (start (Backend.constant_db "[(1,)]")
                         "mysql+pymysql://root:@localhost/mcp_proj1")
                  eq_refl eq_refl eq_refl eq_refl)).
Defined.

Lemma process_request_returns (tools : list (string * tool)) (line : wire)
    (h : host) :
  exists h', process_request tools line h = (Returns tt, h').
Proof.
  unfold process_request, try_except.
  destruct (process_request_body tools line h) as [[[] | e] h'].
  - now exists h'.
  - cbn. eexists. reflexivity.
Qed.

(** C2, amended.  No exception leaves [process_request], whatever the line.
    When a call names a registered tool and the tool raises, the exception
    is caught and logged, and no response line is written for the request;
    what the tool did to the backend before raising stays. *)
Theorem raising_tool_is_logged_without_response
    (tools : list (string * tool)) :
  (forall line h, exists h', process_request tools line h = (Returns tt, h'))
  /\ (forall items ps name f e w h,
        lookup "method" items = Some (PStr "tools/call") ->
        lookup "params" items = Some (PDict ps) ->
        lookup "name" ps = Some (PStr name) ->
        option_map snd (find (fun kv => fst kv =? name) tools) = Some f ->
        f (match lookup "arguments" ps with
           | Some v => v
           | None => PDict []
           end) (backend h) = (Raises e, w) ->
        process_request tools (Encoded (PDict items)) h
        = (Returns tt,
           Host w (stdout h)
                (errors h ++ ["Error processing request: " ++ exn_msg e]))).
Proof.
  split; [apply process_request_returns|].
  intros items ps name f e w h Hm Hp Hn Hf He.
  rewrite (process_call tools items ps name h Hm Hp Hn), Hf.
  cbv zeta. now rewrite He.
Qed.

Lemma raising_tool_is_logged_without_response_witness :
  let db := Backend.constant_db "[(1,)]" in
  let h := start db "mysql+pymysql://root:@localhost/mcp_proj1" in
  run_query db (PDict []) (backend h)
  = (Raises (TypeError
               "run_query() missing 1 required positional argument: 'query'"),
     backend h)
  /\ process_request (mcp_tools db)
       (Encoded (Client.make_request "run_query" (PDict []))) h
     = (Returns tt,
        Host (backend h) (stdout h)
          (errors h ++
           ["Error processing request: run_query() missing 1 required positional argument: 'query'"])).
Proof.
  split; [reflexivity|].
  exact (proj2 (raising_tool_is_logged_without_response
                  (mcp_tools (Backend.constant_db "[(1,)]")))
               [("jsonrpc", PStr "2.0"); ("id", PInt 1);
                ("method", PStr "tools/call");
                ("params", PDict [("name", PStr "run_query");
                                  ("arguments", PDict [])])]
               [("name", PStr "run_query"); ("arguments", PDict [])]
               "run_query" (run_query (Backend.constant_db "[(1,)]"))
               (TypeError
                  "run_query() missing 1 required positional argument: 'query'")
               _ _ eq_refl eq_refl eq_refl eq_refl eq_refl).
Defined.

(** C2 as stated fails: a call of the registered tool run_query without
    its argument raises inside the dispatcher, and the request gets no
    response line at all, hence no error response. *)
Lemma raising_tool_gets_no_response :
  let db := Backend.constant_db "[(1,)]" in
  let h := start db "mysql+pymysql://root:@localhost/mcp_proj1" in
  let r := process_request (mcp_tools db)
             (Encoded (Client.make_request "run_query" (PDict []))) h in
  registered (mcp_tools db) "run_query" = true
  /\ fst r = Returns tt
  /\ ~ (exists response, In response (stdout (snd r))).
Proof.
  split; [reflexivity|]. split; [reflexivity|].
  intros [response Hin]. exact Hin.
Qed.

Lemma run_step_spec (tools : list (string * tool)) (read : outcome wire)
    (h : host) :
  run_step tools read h =
  match read with
  | Returns line =>
      (Returns (Some tt),
       if not_blank line then snd (process_request tools line h) else h)
  | Raises e =>
      if isinstance_exn e "EOFError" then (Returns None, h)
      else (Returns (Some tt),
            Host (backend h) (stdout h)
                 (errors h ++ ["Error in server loop: " ++ exn_msg e]))
  end.
Proof.
  unfold run_step, try_except, bind, lift. destruct read as [line | e].
  - destruct (not_blank line); [|reflexivity].
    destruct (process_request_returns tools line h) as [h' ->].
    reflexivity.
  - cbn [handle]. destruct (isinstance_exn e "EOFError"); reflexivity.
Qed.

Lemma run_returns (tools : list (string * tool)) (stdin : list (outcome wire))
    (h : host) :
  exists h', run tools stdin h = (Returns tt, h').
Proof.
  revert h. induction stdin as [|read rest IH]; intros h.
  - now exists h.
  - cbn [run]. unfold bind. rewrite run_step_spec.
    destruct read as [line | e].
    + apply IH.
    + destruct (isinstance_exn e "EOFError"); [now exists h | apply IH].
Qed.

(** The loop goes through every result of [input()] that is not an
    [EOFError]. *)
Lemma run_app (tools : list (string * tool))
    (before after : list (outcome wire)) (h : host) :
  no_eof before = true ->
  run tools (before ++ after) h = run tools after (snd (run tools before h)).
Proof.
  revert h. induction before as [|read rest IH]; intros h Hne.
  - reflexivity.
  - cbn [no_eof forallb] in Hne. apply andb_true_iff in Hne.
    destruct Hne as [Hr Hrest]. cbn [run app]. unfold bind.
    rewrite run_step_spec. destruct read as [line | e].
    + now apply IH.
    + apply negb_true_iff in Hr. rewrite Hr. now apply IH.
Qed.

(** C9.  A line that does not decode is caught and logged by
    [process_request], which prints nothing for it and leaves the backend
    alone; the read loop then goes on with the next line, as it does after
    any line; it never lets an exception out.  The loop ends at the first
    [EOFError] that [input()] raises: whatever would follow is not read and
    the host is left as it was; any other exception of [input()] is logged
    and the loop goes on. *)
Theorem bad_request_does_not_stop_host (tools : list (string * tool))
    (before after : list (outcome wire)) (text why : string) (h : host) :
  no_eof before = true ->
  let h1 := snd (run tools before h) in
  let logged :=
    Host (backend h1) (stdout h1)
         (errors h1 ++ ["Error processing request: " ++ why]) in
  process_request tools (Malformed text why) h1 = (Returns tt, logged)
  /\ run tools (before ++ Returns (Malformed text why) :: after) h
     = run tools after
         (if not_blank (Malformed text why) then logged else h1)
  /\ (forall line,
        run tools (before ++ Returns line :: after) h
        = run tools after
            (if not_blank line then snd (process_request tools line h1)
             else h1))
  /\ (forall stdin h0, exists h', run tools stdin h0 = (Returns tt, h'))
  /\ run tools [] h1 = (Returns tt, h1)
  /\ (forall e, isinstance_exn e "EOFError" = true ->
        run tools (before ++ Raises e :: after) h = (Returns tt, h1))
  /\ (forall e, isinstance_exn e "EOFError" = false ->
        run tools (before ++ Raises e :: after) h
        = run tools after
            (Host (backend h1) (stdout h1)
                  (errors h1 ++ ["Error in server loop: " ++ exn_msg e]))).
Proof.
  intros Hne h1 logged.
  assert (Hline : forall line,
             run tools (before ++ Returns line :: after) h
             = run tools after
                 (if not_blank line then snd (process_request tools line h1)
                  else h1)).
  { intros line. rewrite run_app by assumption. fold h1.
    cbn [run]. unfold bind. now rewrite run_step_spec. }
  split; [reflexivity|].
  split; [|split; [exact Hline|split; [|split; [|split]]]].
  - rewrite Hline. reflexivity.
  - intros stdin h0. apply run_returns.
  - reflexivity.
  - intros e He. rewrite run_app by assumption. fold h1.
    cbn [run]. unfold bind. now rewrite run_step_spec, He.
  - intros e He. rewrite run_app by assumption. fold h1.
    cbn [run]. unfold bind. now rewrite run_step_spec, He.
Qed.

Lemma bad_request_does_not_stop_host_witness :
  let db := Backend.constant_db "[(1,)]" in
  let h := start db "mysql+pymysql://root:@localhost/mcp_proj1" in
  let call := Returns (Encoded (Client.make_request "test_connection"
                                  (PDict []))) in
  let bad := Malformed "{oops" "Expecting property name enclosed in double quotes: line 1 column 2 (char 1)" in
  no_eof [call] = true
  /\ stdout (snd (run (mcp_tools db) ([call] ++ Returns bad :: [call]) h))
     = [result_response (PInt 1) "Connection successful: [(1,)]";
        result_response (PInt 1) "Connection successful: [(1,)]"].
Proof.
  split; [reflexivity|].
  rewrite (proj1 (proj2 (bad_request_does_not_stop_host
             (mcp_tools (Backend.constant_db "[(1,)]"))
             [Returns (Encoded (Client.make_request "test_connection"
                                  (PDict [])))]
             [Returns (Encoded (Client.make_request "test_connection"
                                  (PDict [])))]
             "{oops" "Expecting property name enclosed in double quotes: line 1 column 2 (char 1)"
             (start (Backend.constant_db "[(1,)]")
                    "mysql+pymysql://root:@localhost/mcp_proj1")
             eq_refl))).
  reflexivity.
Defined.

End ServerFacts.

(** ** The client proxy *)

Module ClientFacts.
Import PyStr PyObj Wire Eff Client.

Lemma client_eta (self : MCPSQLClient) (p : subprocess) :
  process self = Some p -> Client (server_script_path self) (Some p) = self.
Proof. destruct self. simpl. now intros ->. Qed.


(** The two [except] clauses of [call_tool], on an exception of any
    class. *)
Ltac outer_handlers :=
  cbn [handle]; unfold failure_of, ret;
  match goal with
  | |- context [isinstance_exn ?e "JSONDecodeError"] =>
      destruct (isinstance_exn e "JSONDecodeError"); reflexivity
  end.

(** [call_tool] on a proxy with a process handle, by what the pipes do. *)
Lemma call_tool_started (tool_name : string) (parameters : option pyobj)
    (self : MCPSQLClient) (p : subprocess) :
  process self = Some p ->
  let request :=
    make_request tool_name
      (match parameters with Some d => d | None => PDict [] end) in
  let x := pipes p (exchanges p) in
  let sent := record (Write request) p in
  call_tool tool_name parameters self =
  match on_send x with
  | Some e =>
      (Returns (failure_of e),
       Client (server_script_path self) (Some (next_exchange sent)))
  | None =>
      (Returns
         match on_read x with
         | Raises e =>
             if isinstance_exn e "TimeoutError"
             then failure "Request timeout" else failure_of e
         | Returns NoData => failure "No response from server"
         | Returns (NotText why) => failure why
         | Returns (Text (Malformed _ _)) =>
             failure "Invalid response from server"
         | Returns (Text (Encoded response)) =>
             match read_response response with
             | Returns env => env
             | Raises e => failure_of e
             end
         end,
       Client (server_script_path self)
              (Some (next_exchange (record (ReadLine 30) sent))))
  end.
Proof.
  intros Hp request x sent. unfold call_tool. rewrite Hp. fold request.
  unfold try_except at 1. unfold call_tool_body, bind at 1, send.
  fold x sent. destruct (on_send x) as [e|] eqn:Hs.
  - outer_handlers.
  - unfold try_except, bind, readline.
    replace (pipes sent (exchanges sent)) with x by reflexivity.
    destruct (on_read x) as [[| [text why | response] | why] | e].
    + reflexivity.
    + reflexivity.
    + cbn [ret lift decode json_loads].
      destruct (read_response response) as [env | e]; [reflexivity|].
      outer_handlers.
    + reflexivity.
    + cbn [handle]. destruct (isinstance_exn e "TimeoutError") eqn:Ht.
      * reflexivity.
      * outer_handlers.
Qed.








(** [read_response] on a response that has a result and no error. *)
Lemma read_response_result (items : list (string * pyobj)) (res : pyobj) :
  lookup "error" items = None ->
  lookup "result" items = Some res ->
  read_response (PDict items) =
  match res with
  | PDict r =>
      match lookup "content" r with
      | Some (PList (first :: _)) =>
          match py_get first "text" (PStr "") with
          | Returns text => Returns (success text)
          | Raises e => Raises e
          end
      | Some content => Returns (success (PStr (py_str content)))
      | None => Returns (success (PStr (py_str res)))
      end
  | _ => Returns (success (PStr (py_str res)))
  end.
Proof.
  intros He Hr. unfold read_response. cbn [py_contains py_get].
  rewrite He, Hr. now destruct res.
Qed.

(** C7, amended.  For a decoded response that carries a result and no
    error: when the content of the result is a list whose first item is a
    dict, [call_tool] returns a success whose payload is the text of that
    item (the empty string if it has none), so the text of the one item of a
    one-text-item result; when the content is an empty list or not a list,
    a success whose payload is the content as a string; when the result is
    not a dict or has no content, a success whose payload is the result as a
    string; when the first item of the content is not a dict, a failure
    whose payload is the message of the exception. *)
Theorem call_tool_result_shapes (tool_name : string)
    (parameters : option pyobj) (self : MCPSQLClient) (p : subprocess)
    (items : list (string * pyobj)) (res : pyobj) :
  process self = Some p ->
  pipes p (exchanges p) = answers (PDict items) ->
  lookup "error" items = None ->
  lookup "result" items = Some res ->
  let env := fst (call_tool tool_name parameters self) in
  (forall r item rest,
     res = PDict r ->
     lookup "content" r = Some (PList (PDict item :: rest)) ->
     env = Returns (success (match lookup "text" item with
                             | Some text => text
                             | None => PStr ""
                             end)))
  /\ (forall text,
        res = PDict [("content",
                      PList [PDict [("type", PStr "text");
                                    ("text", PStr text)]])] ->
        env = Returns (success (PStr text)))
  /\ (forall r content,
        res = PDict r ->
        lookup "content" r = Some content ->
        (forall first rest, content <> PList (first :: rest)) ->
        env = Returns (success (PStr (py_str content))))
  /\ ((forall r, res = PDict r -> lookup "content" r = None) ->
      env = Returns (success (PStr (py_str res))))
  /\ (forall r first rest,
        res = PDict r ->
        lookup "content" r = Some (PList (first :: rest)) ->
        (forall item, first <> PDict item) ->
        env = Returns (failure (exn_msg (AttributeError first "get")))).
Proof.
  intros Hp Hx He Hr env. subst env.
  rewrite (call_tool_started tool_name parameters self p Hp). cbv zeta.
  rewrite Hx. cbn [answers on_send on_read fst].
  rewrite (read_response_result items res He Hr).
  split; [|split; [|split; [|split]]].
  - intros r item rest -> Hc. rewrite Hc. cbn [py_get].
    now destruct (lookup "text" item).
  - intros text ->. reflexivity.
  - intros r content -> Hc Hshape. rewrite Hc.
    destruct content as [| | | | |[|first rest]|]; try reflexivity.
    now destruct (Hshape first rest).
  - intros Hno. destruct res as [| | | | | |r]; try reflexivity.
    now rewrite (Hno r eq_refl).
  - intros r first rest -> Hc Hnd. rewrite Hc.
    destruct first as [| | | | | |item]; try reflexivity.
    now destruct (Hnd item).
Qed.

Lemma call_tool_result_shapes_witness :
  let response :=
    PDict [("jsonrpc", PStr "2.0"); ("id", PInt 1);
           ("result",
            PDict [("content",
                    PList [PDict [("type", PStr "text");
                                  ("text", PStr "[(1,)]")]])])] in
  let p := live_child (answers response) (Some (-15)%Z) in
  let self := Client "server/mcp_server.py" (Some p) in
  (process self = Some p
   /\ pipes p (exchanges p) = answers response)
  /\ fst (call_tool "test_connection" None self)
     = Returns (success (PStr "[(1,)]")).
Proof.
  split; [split; reflexivity|].
  set (res := PDict [("content",
                      PList [PDict [("type", PStr "text");
                                    ("text", PStr "[(1,)]")]])]).
  set (items := [("jsonrpc", PStr "2.0"); ("id", PInt 1); ("result", res)]).
  exact (proj1 (proj2 (call_tool_result_shapes "test_connection" None
                         (Client "server/mcp_server.py"
                            (Some (live_child (answers (PDict items))
                                              (Some (-15)%Z))))
                         (live_child (answers (PDict items)) (Some (-15)%Z))
                         items res eq_refl eq_refl eq_refl eq_refl))
               "[(1,)]" eq_refl).
Defined.

(** C7 as stated fails: for a result whose content is a list of plain
    strings, which is not one text content item, [call_tool] does not return
    a success with the result as a string: it returns a failure. *)
Lemma call_tool_other_shape_fails :
  let response :=
    PDict [("jsonrpc", PStr "2.0"); ("id", PInt 1);
           ("result", PDict [("content", PList [PStr "rows"])])] in
  let self := Client "server/mcp_server.py"
                (Some (live_child (answers response) (Some (-15)%Z))) in
  let r := fst (call_tool "run_query"
                  (Some (PDict [("query", PStr "SELECT 1")])) self) in
  r = Returns (failure "'str' object has no attribute 'get'")
  /\ ~ (exists env, r = Returns env /\ error env = false).
Proof.
  split; [reflexivity|].
  intros (env & Henv & Herr). cbv in Henv. injection Henv as <-.
  discriminate.
Qed.

(** C10, amended.  On a proxy without a process handle, [call_tool]
    returns the failure "MCP server not started", without raising and
    without touching the proxy; that is the proxy as created, and the proxy
    after a start that failed because the script is missing or the spawn
    raised.  A start that fails because the child has exited during the
    pause returns false as well but keeps the handle of the child. *)
Theorem call_tool_without_process :
  (forall tool_name parameters self,
     process self = None ->
     call_tool tool_name parameters self
     = (Returns (failure "MCP server not started"), self))
  /\ (forall path l,
        l = ScriptMissing \/ (exists e, l = SpawnRaises e) ->
        start_server l (new path) = (Returns false, new path))
  /\ (forall path p rc,
        returncode p = Some rc ->
        start_server (Spawned p) (new path)
        = (Returns false, Client path (Some p))).
Proof.
  split; [|split].
  - intros tool_name parameters self H. unfold call_tool. now rewrite H.
  - intros path l [-> | [e ->]]; reflexivity.
  - intros path p rc H. unfold start_server, try_except. cbn. now rewrite H.
Qed.

Lemma call_tool_without_process_witness :
  process (new "server/mcp_server.py") = None
  /\ call_tool "test_connection" None (new "server/mcp_server.py")
     = (Returns (failure "MCP server not started"),
        new "server/mcp_server.py").
Proof.
  split; [reflexivity|].
  exact (proj1 call_tool_without_process "test_connection" None
           (new "server/mcp_server.py") eq_refl).
Defined.

(** C10 as stated fails: after a start that failed because the child had
    exited, [call_tool] does not answer "MCP server not started"; it goes to
    the pipes of the dead child and returns what they give. *)
Lemma call_tool_after_failed_start :
  let started := start_server (Spawned dead_child)
                   (new "server/mcp_server.py") in
  let r := fst (call_tool "test_connection" None (snd started)) in
  fst started = Returns false
  /\ r = Returns (failure "Connection lost")
  /\ r <> Returns (failure "MCP server not started").
Proof.
  split; [reflexivity|]. split; [reflexivity|]. discriminate.
Qed.

Lemma existsb_kill_record (p : subprocess) (a : action) :
  existsb is_kill (trace (record a p))
  = existsb is_kill (trace p) || is_kill a.
Proof. cbn. rewrite existsb_app. cbn. now rewrite orb_false_r. Qed.

Lemma existsb_terminate_record (p : subprocess) (a : action) :
  existsb is_terminate (trace (record a p))
  = existsb is_terminate (trace p) || is_terminate a.
Proof. cbn. rewrite existsb_app. cbn. now rewrite orb_false_r. Qed.

(** The [try] statement of [close], case by case. *)
Lemma close_process_spec (p : subprocess) :
  close_process p =
  if released p then Some (Raises ProcessLookupError, p)
  else match returncode p with
       | Some _ => Some (Returns tt, record (Wait (Some 5%Z)) p)
       | None =>
           let asked := record (Wait (Some 5%Z)) (record Terminate p) in
           match (if existsb is_kill (trace p) then Some (kill_status p)
                  else term_status p) with
           | Some rc =>
               if pipes_close p then Some (Returns tt, reaped rc asked)
               else Some (Returns tt, record (Wait None) (exited rc asked))
           | None =>
               if pipes_close p
               then Some (Returns tt,
                          reaped (kill_status p)
                            (record (Wait None) (record Kill asked)))
               else None
           end
       end.
Proof.
  unfold close_process, rescue, and_then, now, terminate.
  destruct (released p) eqn:Hrel; [reflexivity|].
  destruct (returncode p) as [rc|] eqn:Hrc.
  - unfold wait. now rewrite Hrc.
  - unfold wait at 1. cbn [returncode record]. rewrite Hrc.
    unfold ends_with at 1.
    rewrite existsb_kill_record, existsb_terminate_record.
    cbn [is_kill is_terminate orb]. rewrite orb_false_r, orb_true_r.
    cbn [kill_status term_status pipes_close record].
    replace (isinstance_exn TimeoutError "TimeoutError") with true
      by reflexivity.
    destruct (if existsb is_kill (trace p) then Some (kill_status p)
              else term_status p) as [rc|] eqn:Hends.
    + destruct (pipes_close p) eqn:Hpc; [reflexivity|].
      unfold kill. cbn [released returncode exited record]. rewrite Hrel.
      unfold wait. cbn [returncode exited record]. reflexivity.
    + destruct (existsb is_kill (trace p)) eqn:Hk; [discriminate|].
      unfold kill. cbn [released returncode record]. rewrite Hrel, Hrc.
      unfold wait. cbn [returncode record]. rewrite Hrc.
      unfold ends_with. rewrite !existsb_kill_record.
      cbn [is_kill orb]. rewrite orb_true_r.
      cbn [kill_status pipes_close record].
      now destruct (pipes_close p).
Qed.

Lemma close_spec_of_process (self : MCPSQLClient) (p : subprocess) :
  process self = Some p ->
  close self =
  match close_process p with
  | None => None
  | Some (r, p') => Some (r, Client (server_script_path self) (Some p'))
  end.
Proof. intros H. unfold close. now rewrite H. Qed.

(** C6, amended.  [close] does nothing on a proxy that was never started.
    On a running child it asks for termination and waits up to five
    seconds.  When the child ends on that and its pipes are disconnected,
    the wait returns and [close] is done.  When the wait expires, [close]
    calls [kill], which signals the child only if it is not known to have
    ended, and waits without bound: it returns with the child ended, unless
    the killed child leaves its pipes connected, in which case that wait,
    and [close], never returns.  The proxy keeps the handle, so closing
    again calls [terminate] on the handle of the ended child: once the
    transport has dropped the child this raises [ProcessLookupError] out of
    [close]; while the transport still holds it, [close] only waits and
    returns.  Either way the child stays in the same ended state. *)
Theorem close_spec :
  (forall self, process self = None -> close self = Some (Returns tt, self))
  /\ (forall self p,
        process self = Some p ->
        returncode p = None ->
        released p = false ->
        existsb is_kill (trace p) = false ->
        let asked := record (Wait (Some 5%Z)) (record Terminate p) in
        let closed p' := Client (server_script_path self) (Some p') in
        (forall rc,
           term_status p = Some rc -> pipes_close p = true ->
           close self = Some (Returns tt, closed (reaped rc asked)))
        /\ (forall rc,
              term_status p = Some rc -> pipes_close p = false ->
              close self
              = Some (Returns tt,
                      closed (record (Wait None) (exited rc asked))))
        /\ (term_status p = None -> pipes_close p = true ->
            close self
            = Some (Returns tt,
                    closed (reaped (kill_status p)
                              (record (Wait None) (record Kill asked)))))
        /\ (term_status p = None -> pipes_close p = false ->
            close self = None))
  /\ (forall self p,
        process self = Some p ->
        released p = true ->
        close self = Some (Raises ProcessLookupError, self))
  /\ (forall self p rc,
        process self = Some p ->
        released p = false ->
        returncode p = Some rc ->
        close self
        = Some (Returns tt,
                Client (server_script_path self)
                       (Some (record (Wait (Some 5%Z)) p)))
        /\ returncode (record (Wait (Some 5%Z)) p) = Some rc).
Proof.
  split; [|split; [|split]].
  - intros self H. unfold close. now rewrite H.
  - intros self p Hp Hrc Hrel Hk asked closed.
    rewrite (close_spec_of_process self p Hp), close_process_spec.
    rewrite Hrel, Hrc, Hk. cbv zeta. fold asked.
    repeat split.
    + intros rc Ht Hpc. now rewrite Ht, Hpc.
    + intros rc Ht Hpc. now rewrite Ht, Hpc.
    + intros Ht Hpc. now rewrite Ht, Hpc.
    + intros Ht Hpc. now rewrite Ht, Hpc.
  - intros self p Hp Hrel.
    rewrite (close_spec_of_process self p Hp), close_process_spec, Hrel.
    now rewrite (client_eta self p Hp).
  - intros self p rc Hp Hrel Hrc.
    rewrite (close_spec_of_process self p Hp), close_process_spec.
    rewrite Hrel, Hrc. split; [reflexivity | exact Hrc].
Qed.

Lemma close_spec_witness :
  let p := clogged_child (Exchange None (Returns NoData)) (Some (-15)%Z) in
  let self := Client "server/mcp_server.py" (Some p) in
  (process self = Some p /\ returncode p = None /\ released p = false
   /\ existsb is_kill (trace p) = false /\ term_status p = Some (-15)%Z
   /\ pipes_close p = false)
  /\ option_map (fun r => option_map trace (process (snd r))) (close self)
     = Some (Some [Terminate; Wait (Some 5%Z); Wait None]).
Proof.
  split; [repeat split|].
  rewrite (proj1 (proj2 (proj1 (proj2 close_spec)
                           (Client "server/mcp_server.py"
                              (Some (clogged_child
                                       (Exchange None (Returns NoData))
                                       (Some (-15)%Z))))
                           _ eq_refl eq_refl eq_refl eq_refl))
             (-15)%Z eq_refl eq_refl).
  reflexivity.
Defined.

(** C6 as stated fails: after a first [close] that ended a running child,
    a second [close] is not silent: it raises [ProcessLookupError]. *)
Lemma second_close_raises :
  let self := Client "server/mcp_server.py"
                (Some (live_child (Exchange None (Returns NoData))
                                  (Some (-15)%Z))) in
  exists closed,
    close self = Some (Returns tt, closed)
    /\ close closed = Some (Raises ProcessLookupError, closed)
    /\ close closed <> Some (Returns tt, closed).
Proof.
  eexists. split; [reflexivity|]. split; [reflexivity|]. discriminate.
Qed.

End ClientFacts.

(** * Further properties *)

(** ** More on strings *)

Module StripFacts.
Import PyStr PyStrFacts.

Lemma lstrip_idempotent (s : string) : lstrip (lstrip s) = lstrip s.
Proof.
  induction s as [|c s IH]; cbn [lstrip]; [reflexivity|].
  destruct (is_space c) eqn:E; [exact IH|]. cbn [lstrip]. now rewrite E.
Qed.

(** What [rstrip] keeps of a text that begins with [c]. *)
Lemma rstrip_cons (c : ascii) (r : string) :
  rstrip (String c r) =
  match rstrip r with
  | EmptyString => if is_space c then EmptyString else String c EmptyString
  | r' => String c r'
  end.
Proof. reflexivity. Qed.

Lemma rstrip_head (c : ascii) (r : string) :
  is_space c = false -> exists r', rstrip (String c r) = String c r'.
Proof.
  intros H. rewrite rstrip_cons, H. destruct (rstrip r); eauto.
Qed.

Lemma rstrip_idempotent (s : string) : rstrip (rstrip s) = rstrip s.
Proof.
  induction s as [|c s IH]; [reflexivity|].
  rewrite rstrip_cons. destruct (rstrip s) as [|d r'] eqn:E.
  - destruct (is_space c) eqn:Ec; [reflexivity|].
    rewrite rstrip_cons. cbn [rstrip]. now rewrite Ec.
  - rewrite rstrip_cons, IH. reflexivity.
Qed.

(** A text that [rstrip] leaves alone stays so when its head is taken
    off, unless nothing is left. *)
Lemma rstrip_fixed_tail (c : ascii) (r : string) :
  rstrip (String c r) = String c r ->
  (r = EmptyString /\ is_space c = false) \/ rstrip r = r.
Proof.
  rewrite rstrip_cons. destruct (rstrip r) as [|d r'] eqn:E.
  - destruct (is_space c); [discriminate|].
    intros H. injection H as <-. now left.
  - intros H. injection H as <-. now right.
Qed.

Lemma rstrip_lstrip_fixed (t : string) :
  rstrip t = t -> rstrip (lstrip t) = lstrip t.
Proof.
  induction t as [|c r IH]; [reflexivity|]. intros H. cbn [lstrip].
  destruct (is_space c) eqn:Ec; [|exact H].
  destruct (rstrip_fixed_tail c r H) as [[_ Hc] | Hr]; [congruence|].
  now apply IH.
Qed.

(** [strip] needs to be applied only once. *)
Lemma strip_idempotent (s : string) : strip (strip s) = strip s.
Proof.
  unfold strip.
  rewrite (rstrip_lstrip_fixed (rstrip s) (rstrip_idempotent s)).
  apply lstrip_idempotent.
Qed.

(** [rstrip] keeps a beginning that itself ends on a character that is not
    white space. *)
Lemma rstrip_keeps_prefix (p x : string) :
  p <> EmptyString -> rstrip p = p -> exists y, rstrip (p ++ x) = p ++ y.
Proof.
  induction p as [|c p IH]; [congruence|]. intros _ H.
  destruct (rstrip_fixed_tail c p H) as [[-> Hc] | Hp].
  - destruct (rstrip_head c x Hc) as [r' Hr]. now exists r'.
  - destruct p as [|d p]; [|].
    + rewrite rstrip_cons in H. cbn [rstrip] in H.
      destruct (is_space c) eqn:Hc; [discriminate|].
      destruct (rstrip_head c x Hc) as [r' Hr]. now exists r'.
    + destruct (IH ltac:(discriminate) Hp) as [y Hy].
      exists y. cbn [append] in *. rewrite rstrip_cons, Hy. reflexivity.
Qed.

Lemma split_app_head (sep : ascii) (p s : string) :
  contains (String sep EmptyString) p = false ->
  exists h t, split sep s = h :: t /\ split sep (p ++ s) = (p ++ h) :: t.
Proof.
  induction p as [|c p IH]; intros H.
  - destruct (split sep s) as [|h t] eqn:E;
      [now destruct (split_not_nil sep s) | now exists h, t].
  - cbn [contains] in H. apply orb_false_iff in H. destruct H as [Hc Hp].
    destruct (IH Hp) as (h & t & Hs & Hps). exists h, t. split; [exact Hs|].
    cbn [append split]. rewrite Hps.
    destruct (Ascii.eqb c sep) eqn:E; [|reflexivity].
    apply Ascii.eqb_eq in E. subst c. cbn in Hc.
    destruct (ascii_dec sep sep); [|contradiction].
    now destruct p.
Qed.

End StripFacts.

(** ** More on the tool backend *)

Module BackendMore.
Import PyStr PyStrFacts StripFacts Backend BackendFacts.

(** After any call of [run_query], answered or not, [get_last_query]
    gives the stripped query and the very text that the call returned. *)
Lemma get_last_query_helper (db : database) (query : string) (w : world) :
  get_last_query (snd (run_query db query w))
  = (Some (strip query), Some (fst (run_query db query w))).
Proof. unfold run_query. now destruct (answer (db (tick w))). Qed.

Lemma run_query_bounded (db : database) (q : string) (w : world) :
  bounded w -> bounded (snd (run_query db q w)).
Proof.
  intros H. unfold bounded.
  change (executed_queries (sql_tool (snd (run_query db q w))))
    with (get_query_history (snd (run_query db q w))).
  rewrite run_query_history by exact H. rewrite last_n_length. lia.
Qed.

Lemma generate_table_ddl_world (db : database) (t : string) (w : world) :
  snd (generate_table_ddl db t w)
  = snd (run_query db ("SHOW CREATE TABLE " ++ t) w).
Proof.
  unfold generate_table_ddl.
  destruct (run_query db ("SHOW CREATE TABLE " ++ t) w) as [raw w'].
  destruct (contains "CREATE TABLE" raw); [|reflexivity].
  now destruct (nonempty (find_create_statement (split NL raw))).
Qed.

Lemma generate_table_ddl_bounded (db : database) (t : string) (w : world) :
  bounded w -> bounded (snd (generate_table_ddl db t w)).
Proof.
  intros H. rewrite generate_table_ddl_world. now apply run_query_bounded.
Qed.

Lemma get_all_tables_tool (db : database) (w : world) :
  sql_tool (snd (get_all_tables db w)) = sql_tool w.
Proof. unfold get_all_tables. now destruct (answer (db (tick w))). Qed.

Lemma get_table_info_tool (db : database) (t : string) (w : world) :
  sql_tool (snd (get_table_info db t w)) = sql_tool w.
Proof. unfold get_table_info. now destruct (answer (db (tick w))). Qed.

Lemma bounded_same_tool (w w' : world) :
  sql_tool w' = sql_tool w -> bounded w -> bounded w'.
Proof. unfold bounded. now intros ->. Qed.

Lemma append_table_ddls_bounded (db : database) (names : list string)
    (acc : string) (w : world) :
  bounded w -> bounded (snd (append_table_ddls db names acc w)).
Proof.
  revert acc w. induction names as [|n names IH]; intros acc w H;
    cbn [append_table_ddls]; [exact H|].
  destruct (nonempty n); [|now apply IH].
  pose proof (generate_table_ddl_bounded db n w H) as Hb.
  destruct (generate_table_ddl db n w) as [ddl w']. now apply IH.
Qed.

Lemma generate_database_schema_bounded (db : database)
    (name : option string) (w : world) :
  bounded w -> bounded (snd (generate_database_schema db name w)).
Proof.
  intros H. unfold generate_database_schema.
  pose proof (get_all_tables_tool db w) as Ht.
  destruct (get_all_tables db w) as [tables w1].
  apply append_table_ddls_bounded. exact (bounded_same_tool w w1 Ht H).
Qed.

Lemma append_table_infos_tool (db : database) (lines : list string)
    (acc : string) (w : world) :
  sql_tool (snd (append_table_infos db lines acc w)) = sql_tool w.
Proof.
  revert acc w. induction lines as [|l lines IH]; intros acc w;
    cbn [append_table_infos]; [reflexivity|].
  destruct (nonempty (strip l) && negb (startswith "Database Tables" l));
    [|apply IH].
  destruct (nonempty (strip l)); [|apply IH].
  pose proof (get_table_info_tool db (strip l) w) as Ht.
  destruct (get_table_info db (strip l) w) as [info w'].
  rewrite IH. exact Ht.
Qed.

Lemma get_schema_info_tool (db : database) (w : world) :
  sql_tool (snd (get_schema_info db w)) = sql_tool w.
Proof.
  unfold get_schema_info. pose proof (get_all_tables_tool db w) as Ht.
  destruct (get_all_tables db w) as [tables w1].
  rewrite append_table_infos_tool. exact Ht.
Qed.

Lemma append_table_data_bounded (db : database) (names : list string)
    (acc : string) (w : world) :
  bounded w -> bounded (snd (append_table_data db names acc w)).
Proof.
  revert acc w. induction names as [|n names IH]; intros acc w H;
    cbn [append_table_data]; [exact H|].
  destruct (nonempty n); [|now apply IH].
  pose proof (run_query_bounded db ("SELECT * FROM " ++ n ++ " LIMIT 100")
                w H) as Hb.
  destruct (run_query db ("SELECT * FROM " ++ n ++ " LIMIT 100") w)
    as [r w'].
  now apply IH.
Qed.

(** X1.  Every operation of the backend keeps the history within its bound
    of ten entries. *)
Theorem operations_keep_history_bound (db : database) (w : world) :
  bounded w ->
  (forall q, bounded (snd (run_query db q w)))
  /\ (forall t, bounded (snd (get_table_info db t w)))
  /\ bounded (snd (get_all_tables db w))
  /\ bounded (snd (get_schema_info db w))
  /\ (forall t, bounded (snd (generate_table_ddl db t w)))
  /\ (forall n, bounded (snd (generate_database_schema db n w)))
  /\ (forall s n, bounded (snd (create_table_like db s n w)))
  /\ (forall n, bounded (snd (get_all_tables_detailed_info db n w)))
  /\ (forall d, bounded (snd (export_database_structure db d w))).
Proof.
  intros H. repeat split.
  - intros q. now apply run_query_bounded.
  - intros t. exact (bounded_same_tool _ _ (get_table_info_tool db t w) H).
  - exact (bounded_same_tool _ _ (get_all_tables_tool db w) H).
  - exact (bounded_same_tool _ _ (get_schema_info_tool db w) H).
  - intros t. now apply generate_table_ddl_bounded.
  - intros n. now apply generate_database_schema_bounded.
  - intros s n. unfold create_table_like.
    pose proof (run_query_bounded db
                  ("CREATE TABLE " ++ n ++ " LIKE " ++ s) w H) as Hb.
    now destruct (run_query db ("CREATE TABLE " ++ n ++ " LIKE " ++ s) w).
  - intros n. unfold get_all_tables_detailed_info.
    match goal with
    | |- context [run_query db ?q w] =>
        pose proof (run_query_bounded db q w H) as Hb;
        now destruct (run_query db q w)
    end.
  - intros d. unfold export_database_structure.
    pose proof (generate_database_schema_bounded db None w H) as Hb.
    destruct (generate_database_schema db None w) as [ddl w1].
    destruct d; [|exact Hb].
    pose proof (get_all_tables_tool db w1) as Ht.
    destruct (get_all_tables db w1) as [tables w2].
    apply append_table_data_bounded. exact (bounded_same_tool _ _ Ht Hb).
Qed.

Lemma operations_keep_history_bound_witness :
  let db := constant_db show_create_inventory in
  let w := run_queries db (repeat "SELECT 1" 12)
             (init "mysql+pymysql://root:@localhost/mcp_proj1") in
  bounded w /\ bounded (snd (export_database_structure db true w)).
Proof.
  assert (H : bounded (run_queries (constant_db show_create_inventory)
                         (repeat "SELECT 1" 12)
                         (init "mysql+pymysql://root:@localhost/mcp_proj1")))
    by (unfold bounded; cbn; lia).
  split; [exact H|].
  exact (proj2 (proj2 (proj2 (proj2 (proj2 (proj2 (proj2 (proj2
           (operations_keep_history_bound _ _ H)))))))) true).
Defined.

(** X2.  Looking up tables never records anything: [get_table_info],
    [get_all_tables] and [get_schema_info] leave the history and the last
    query as they were, whether the database answers or raises. *)
Theorem lookups_leave_tool_unchanged (db : database) (w : world) :
  (forall t, sql_tool (snd (get_table_info db t w)) = sql_tool w)
  /\ sql_tool (snd (get_all_tables db w)) = sql_tool w
  /\ sql_tool (snd (get_schema_info db w)) = sql_tool w.
Proof.
  split; [intros t; apply get_table_info_tool|].
  split; [apply get_all_tables_tool | apply get_schema_info_tool].
Qed.

(** X3.  Every table name that [generate_database_schema] reads from the
    table list is the stripped text of one of its lines, is not empty, has
    no white space around it and does not begin with the header words; so
    the test for an empty name in the loop never fails. *)
Theorem parsed_table_names_are_clean (lines : list string) (n : string) :
  In n (parse_table_names lines) ->
  (exists line, In line lines /\ n = strip line)
  /\ n <> EmptyString
  /\ strip n = n
  /\ startswith "Database Tables" n = false.
Proof.
  induction lines as [|l lines IH]; cbn [parse_table_names]; [intros []|].
  destruct (nonempty (strip l) && negb (startswith "Database Tables" (strip l)))
    eqn:E.
  - intros [<- | H].
    + apply andb_true_iff in E. destruct E as [E1 E2].
      apply negb_true_iff in E2. apply nonempty_iff in E1.
      repeat split; auto using strip_idempotent.
      exists l. split; [now left | reflexivity].
    + destruct (IH H) as [[line [Hin Hl]] Hrest].
      split; [exists line; split; [now right | exact Hl] | exact Hrest].
  - intros H. destruct (IH H) as [[line [Hin Hl]] Hrest].
    split; [exists line; split; [now right | exact Hl] | exact Hrest].
Qed.

Lemma parsed_table_names_are_clean_witness :
  let lines := split NL ("Database Tables" ++ LF ++ " inventory " ++ LF) in
  In "inventory" (parse_table_names lines)
  /\ strip "inventory" = "inventory".
Proof.
  assert (H : In "inventory"
                (parse_table_names
                   (split NL ("Database Tables" ++ LF ++ " inventory "
                                ++ LF))))
    by (now left).
  split; [exact H|].
  exact (proj1 (proj2 (proj2 (parsed_table_names_are_clean _ _ H)))).
Defined.


Lemma generate_table_ddl_tick (db : database) (t : string) (w : world) :
  tick (snd (generate_table_ddl db t w)) = S (tick w).
Proof. rewrite generate_table_ddl_world. apply run_query_tick. Qed.

Lemma get_all_tables_tick (db : database) (w : world) :
  tick (snd (get_all_tables db w)) = S (tick w).
Proof. unfold get_all_tables. now destruct (answer (db (tick w))). Qed.

Lemma concat_cons (x : string) (l : list string) :
  String.concat "" (x :: l) = x ++ String.concat "" l.
Proof.
  destruct l; cbn [String.concat]; [now rewrite append_empty_r|reflexivity].
Qed.

(** The loop of [generate_database_schema] adds one block per table. *)
Lemma append_table_ddls_blocks (db : database) (names : list string)
    (acc : string) (w : world) :
  fst (append_table_ddls db names acc w)
  = acc ++ String.concat ""
             (map (fun ddl => LF ++ ddl ++ LF) (table_ddls db names w)).
Proof.
  revert acc w. induction names as [|n names IH]; intros acc w;
    cbn [append_table_ddls table_ddls].
  - cbn. now rewrite append_empty_r.
  - destruct (nonempty n); [|apply IH].
    destruct (generate_table_ddl db n w) as [ddl w']. rewrite IH.
    cbn [map]. now rewrite concat_cons, !append_assoc.
Qed.

Lemma append_table_ddls_tick (db : database) (names : list string)
    (acc : string) (w : world) :
  Forall (fun n => n <> EmptyString) names ->
  tick (snd (append_table_ddls db names acc w)) = tick w + length names.
Proof.
  intros H. revert acc w.
  induction H as [|n names Hn _ IH]; intros acc w;
    cbn [append_table_ddls length snd]; [lia|].
  apply nonempty_iff in Hn. rewrite Hn.
  pose proof (generate_table_ddl_tick db n w) as Ht.
  destruct (generate_table_ddl db n w) as [ddl w']. rewrite IH.
  cbn [snd] in Ht. lia.
Qed.

Lemma parse_table_names_nonempty (lines : list string) :
  Forall (fun n => n <> EmptyString) (parse_table_names lines).
Proof.
  induction lines as [|l lines IH]; cbn [parse_table_names]; [constructor|].
  destruct (nonempty (strip l)) eqn:E; cbn [andb]; [|exact IH].
  destruct (negb (startswith "Database Tables" (strip l))); [|exact IH].
  constructor; [now apply nonempty_iff | exact IH].
Qed.

Lemma generate_database_schema_tick (db : database)
    (database_name : option string) (w : world) :
  tick (snd (generate_database_schema db database_name w))
  = tick w + 1
    + length (parse_table_names (split NL (fst (get_all_tables db w)))).
Proof.
  unfold generate_database_schema.
  pose proof (get_all_tables_tick db w) as Ht.
  destruct (get_all_tables db w) as [tables w1]. cbn [fst snd] in *.
  rewrite append_table_ddls_tick by apply parse_table_names_nonempty.
  lia.
Qed.

(** X4.  The text of [generate_database_schema] is its two header lines,
    naming the database that was asked for, or, when none or an empty one
    was, the part of the connection URI after its last slash, then an empty
    line, then for each table name read from the table list, in order, the
    text of [generate_table_ddl] between two newlines.  It asks the database
    once for the list and once per table name. *)
Theorem generate_database_schema_layout (db : database)
    (database_name : option string) (w : world) :
  let tables := get_all_tables db w in
  let names := parse_table_names (split NL (fst tables)) in
  fst (generate_database_schema db database_name w)
  = "-- Complete Database Schema for: "
      ++ effective_database_name database_name w ++ LF
      ++ "-- Generated DDL Statements" ++ LF ++ LF
      ++ String.concat ""
           (map (fun ddl => LF ++ ddl ++ LF)
                (table_ddls db names (snd tables)))
  /\ tick (snd (generate_database_schema db database_name w))
     = tick w + 1 + length names
  /\ generate_database_schema db (Some EmptyString) w
     = generate_database_schema db None w.
Proof.
  intros tables names. subst tables names.
  split; [|split; [apply generate_database_schema_tick | reflexivity]].
  unfold generate_database_schema.
  destruct (get_all_tables db w) as [tables w1]. cbn [fst snd].
  rewrite append_table_ddls_blocks.
  unfold effective_database_name. now rewrite !append_assoc.
Qed.

(** X5.  When the listing of the tables raises, [generate_database_schema]
    does not report it: the error text that [get_all_tables] returns is read
    as a table list, its first line passes for a table name, and an
    introspection query is run for it. *)
Theorem listing_failure_is_read_as_table_name (db : database)
    (database_name : option string) (w : world) (e : exn) :
  answer (db (tick w)) = Raises e ->
  exists name rest,
    parse_table_names
      (split NL ("Error getting table list: " ++ exn_msg e))
    = name :: rest
    /\ startswith "Error getting table list:" name = true
    /\ tick (snd (generate_database_schema db database_name w))
       = tick w + 2 + length rest.
Proof.
  intros He.
  destruct (split_app_head NL "Error getting table list: " (exn_msg e)
              eq_refl) as (h & t & _ & Hs).
  destruct (rstrip_keeps_prefix "Error getting table list:" (" " ++ h)
              ltac:(discriminate) eq_refl) as [y Hy].
  assert (Hstrip : strip ("Error getting table list: " ++ h)
                   = "Error getting table list:" ++ y).
  { unfold strip.
    change ("Error getting table list: " ++ h)
      with ("Error getting table list:" ++ " " ++ h).
    rewrite Hy. reflexivity. }
  assert (Hnames : parse_table_names
                     (split NL ("Error getting table list: " ++ exn_msg e))
                   = ("Error getting table list:" ++ y)
                       :: parse_table_names t).
  { rewrite Hs. cbn [parse_table_names]. rewrite Hstrip. reflexivity. }
  exists ("Error getting table list:" ++ y), (parse_table_names t).
  split; [exact Hnames|]. split; [apply prefix_iff; now exists y|].
  rewrite generate_database_schema_tick.
  unfold get_all_tables. rewrite He. cbn [fst].
  rewrite Hnames. cbn [length]. lia.
Qed.

Lemma listing_failure_is_read_as_table_name_witness :
  let db := failing_db "server has gone away" in
  let w := init "mysql+pymysql://root:@localhost/mcp_proj1" in
  answer (db (tick w)) = Raises (Exn "OperationalError" "server has gone away")
  /\ tick (snd (generate_database_schema db None w)) = 2
  /\ get_last_query (snd (generate_database_schema db None w))
     = (Some "SHOW CREATE TABLE Error getting table list: server has gone away",
        Some "Error executing query: server has gone away").
Proof.
  split; [reflexivity|]. split; [|reflexivity].
  destruct (listing_failure_is_read_as_table_name
              (failing_db "server has gone away") None
              (init "mysql+pymysql://root:@localhost/mcp_proj1")
              (Exn "OperationalError" "server has gone away") eq_refl)
    as (name & rest & Hnames & _ & Htick).
  vm_compute in Hnames. injection Hnames as _ <-. exact Htick.
Defined.

(** X6.  [create_table_like] announces success whatever the database did:
    when the execution of its query raises, the returned text is the same
    success message, and the error shows only as the last result. *)
Theorem create_table_like_always_announces_success (db : database)
    (source_table new_table : string) (w : world) :
  let query := "CREATE TABLE " ++ new_table ++ " LIKE " ++ source_table in
  let r := create_table_like db source_table new_table w in
  fst r = "Table '" ++ new_table
            ++ "' created successfully with structure like '"
            ++ source_table ++ "'"
  /\ snd r = snd (run_query db query w)
  /\ (forall e, answer (db (tick w)) = Raises e ->
        get_last_query (snd r)
        = (Some (strip query),
           Some ("Error executing query: " ++ exn_msg e))
        /\ get_query_history (snd r) = get_query_history w).
Proof.
  intros query r. subst r. unfold create_table_like. fold query.
  destruct (run_query db query w) as [result w'] eqn:E. cbn [fst snd].
  split; [reflexivity|]. split; [reflexivity|].
  intros e He. replace w' with (snd (run_query db query w)) by now rewrite E.
  unfold run_query. rewrite He. cbn. auto.
Qed.

Lemma create_table_like_always_announces_success_witness :
  let db := failing_db "Table 'sales' doesn't exist" in
  let w := init "mysql+pymysql://root:@localhost/mcp_proj1" in
  answer (db (tick w))
  = Raises (Exn "OperationalError" "Table 'sales' doesn't exist")
  /\ fst (create_table_like db "sales" "sales_copy" w)
     = "Table 'sales_copy' created successfully with structure like 'sales'"
  /\ snd (get_last_query (snd (create_table_like db "sales" "sales_copy" w)))
     = Some "Error executing query: Table 'sales' doesn't exist".
Proof.
  split; [reflexivity|].
  destruct (create_table_like_always_announces_success
              (failing_db "Table 'sales' doesn't exist") "sales" "sales_copy"
              (init "mysql+pymysql://root:@localhost/mcp_proj1"))
    as (Hfst & _ & Hlast).
  split; [exact Hfst|].
  destruct (Hlast _ eq_refl) as [Hq _]. now rewrite Hq.
Defined.

End BackendMore.

(** ** More on the dispatcher and the host *)

Module ServerMore.
Import PyStr PyStrFacts PyObj Wire Eff Server ServerFacts BackendMore.

(** Unfolds [process_request] down to the look-ups in the request. *)
Ltac run_request :=
  unfold process_request, process_request_body, try_except, bind, lift;
  cbn [json_loads py_get py_getitem].

(** Everything that [process_request] can do with a line. *)
Lemma process_request_cases (tools : list (string * tool)) (line : wire)
    (h : host) :
  let h' := snd (process_request tools line h) in
  h' = h
  \/ (exists msg,
        h' = Host (backend h) (stdout h) (errors h ++ [msg]))
  \/ (exists id name,
        h' = Host (backend h) (stdout h ++ [not_found_response id name])
                  (errors h))
  \/ (exists name f args id,
        In (name, f) tools
        /\ match f args (backend h) with
           | (Returns text, w) =>
               h' = Host w (stdout h ++ [result_response id text]) (errors h)
           | (Raises e, w) =>
               h' = Host w (stdout h)
                      (errors h ++ ["Error processing request: " ++ exn_msg e])
           end).
Proof.
  destruct line as [text why | request].
  - right. left. eexists. reflexivity.
  - destruct request as [| | | | | |items];
      try (right; left; eexists; reflexivity).
    destruct (lookup "method" items) as [m|] eqn:Hm.
    2:{ left. run_request. now rewrite Hm. }
    destruct (is_tools_call m) eqn:Hcall.
    2:{ left. run_request. rewrite Hm. cbn [fst snd]. now rewrite Hcall. }
    destruct m as [| | | |method| |]; try discriminate.
    apply String.eqb_eq in Hcall. subst method.
    destruct (lookup "params" items) as [params|] eqn:Hp.
    2:{ right. left. eexists. run_request. rewrite Hm, Hp. reflexivity. }
    destruct params as [| | | | | |ps];
      try (right; left; eexists; run_request; rewrite Hm, Hp; reflexivity).
    destruct (lookup "name" ps) as [tool_name|] eqn:Hn.
    2:{ right. left. eexists. run_request. rewrite Hm, Hp. cbn.
        rewrite Hn. reflexivity. }
    destruct tool_name as [| | | |name| |].
    5:{ rewrite (process_call tools items ps name h Hm Hp Hn).
        destruct (find (fun kv => fst kv =? name) tools) as [[n f]|] eqn:Ef.
        - right. right. right. apply find_some in Ef.
          destruct Ef as [Hin Heq]. cbn [fst] in Heq.
          apply String.eqb_eq in Heq. subst n. cbn [option_map snd].
          exists name, f,
            (match lookup "arguments" ps with
             | Some v => v
             | None => PDict []
             end),
            (match lookup "id" items with Some v => v | None => PNone end).
          split; [exact Hin|]. cbv zeta.
          destruct (f _ (backend h)) as [[text | e] w]; reflexivity.
        - right. right. left. do 2 eexists. reflexivity. }
    all: try (right; left; eexists; run_request; rewrite Hm, Hp; cbn;
              rewrite Hn; destruct (lookup "arguments" ps); reflexivity).
    all: right; right; left; run_request; rewrite Hm, Hp; cbn; rewrite Hn;
      destruct (lookup "arguments" ps); cbn;
      destruct (lookup "id" items); do 2 eexists; reflexivity.
Qed.


(** X7.  A well-formed call of a registered tool that returns a text makes
    the dispatcher print exactly one response: a result with that text as
    its one text content item, under the identifier of the request; the
    dispatcher makes neither of its own [logger.error] calls, and the
    backend is as the tool left it.  [errors] holds the [logger.error] calls
    of the methods of [FastMCP] only: what the tool or the backend logs
    while it runs is not stated here. *)
Theorem registered_tool_result_is_sent (tools : list (string * tool))
    (items ps : list (string * pyobj)) (name : string) (f : tool)
    (text : string) (w : Backend.world) (h : host) :
  lookup "method" items = Some (PStr "tools/call") ->
  lookup "params" items = Some (PDict ps) ->
  lookup "name" ps = Some (PStr name) ->
  option_map snd (find (fun kv => fst kv =? name) tools) = Some f ->
  f (match lookup "arguments" ps with Some v => v | None => PDict [] end)
    (backend h) = (Returns text, w) ->
  let id := match lookup "id" items with Some v => v | None => PNone end in
  process_request tools (Encoded (PDict items)) h
  = (Returns tt, Host w (stdout h ++ [result_response id text]) (errors h))
  /\ py_getitem (result_response id text) "result"
     = Returns (PDict [("content",
                        PList [PDict [("type", PStr "text");
                                      ("text", PStr text)]])])
  /\ py_contains "error" (result_response id text) = Returns false
  /\ py_getitem (result_response id text) "id" = Returns id.
Proof.
  intros Hm Hp Hn Hf Hcall id. split; [|repeat split].
  rewrite (process_call tools items ps name h Hm Hp Hn), Hf. cbv zeta.
  now rewrite Hcall.
Qed.

Lemma registered_tool_result_is_sent_witness :
  let db := Backend.constant_db "[(1,)]" in
  let h := start db "mysql+pymysql://root:@localhost/mcp_proj1" in
  stdout (snd (process_request (mcp_tools db)
                 (Encoded (Client.make_request "run_query"
                             (PDict [("query", PStr "SELECT 1")]))) h))
  = [result_response (PInt 1) "[(1,)]"].
Proof.
  intros db h. unfold Client.make_request.
  rewrite (proj1 (registered_tool_result_is_sent (mcp_tools db)
             [("jsonrpc", PStr "2.0"); ("id", PInt 1);
              ("method", PStr "tools/call");
              ("params", PDict [("name", PStr "run_query");
                                ("arguments",
                                 PDict [("query", PStr "SELECT 1")])])]
             [("name", PStr "run_query");
              ("arguments", PDict [("query", PStr "SELECT 1")])]
             "run_query" (run_query db) "[(1,)]"
             (snd (Backend.run_query db "SELECT 1" (backend h))) h
             eq_refl eq_refl eq_refl eq_refl eq_refl)).
  reflexivity.
Defined.

Lemma bind_kwargs_raises_type_error (fname : string) (p : parameter)
    (args : pyobj) (e : exn) :
  bind_kwargs fname p args = Raises e -> exn_class e = "TypeError".
Proof.
  unfold bind_kwargs. intros H.
  repeat match type of H with
         | context [match ?x with _ => _ end] => destruct x
         end;
    try discriminate; now injection H as <-.
Qed.

(** Replaces the parameter of a named function by its value. *)
Ltac evaluate_parameter H :=
  match type of H with
  | context [parameter_of ?n] =>
      let p := eval vm_compute in (parameter_of n) in
      change (parameter_of n) with p in H
  end.

(** The registered functions, by what the binding of the arguments
    gives. *)
Lemma mcp_tool_binding (db : Backend.database) (name : string) (f : tool)
    (args : pyobj) (w : Backend.world) :
  In (name, f) (mcp_tools db) ->
  match bind_kwargs name (parameter_of name) args with
  | Raises e => f args w = (Raises e, w) /\ exn_class e = "TypeError"
  | Returns _ => exists text w', f args w = (Returns text, w')
  end.
Proof.
  intros Hin.
  destruct (bind_kwargs name (parameter_of name) args) as [v | e] eqn:Hb.
  - unfold mcp_tools in Hin. cbn [In] in Hin.
    repeat (destruct Hin as [Heq | Hin];
            [injection Heq as <- <-; evaluate_parameter Hb;
             unfold run_query, get_table_info, get_last_query,
               generate_table_ddl, generate_database_schema,
               test_connection, tool_of;
             rewrite Hb;
             match goal with
             | |- context [let (_, _) := ?b in _] =>
                 destruct b as [text w']; eauto
             end|]).
    destruct Hin.
  - pose proof (bind_kwargs_raises_type_error _ _ _ _ Hb) as Hc.
    unfold mcp_tools in Hin. cbn [In] in Hin.
    repeat (destruct Hin as [Heq | Hin];
            [injection Heq as <- <-; evaluate_parameter Hb;
             unfold run_query, get_table_info, get_last_query,
               generate_table_ddl, generate_database_schema,
               test_connection, tool_of;
             rewrite Hb; auto|]).
    destruct Hin.
Qed.


Lemma registered_find (tools : list (string * tool)) (name : string) :
  registered tools name = true ->
  exists f, option_map snd (find (fun kv => fst kv =? name) tools) = Some f
            /\ In (name, f) tools.
Proof.
  unfold registered. intros H. apply existsb_exists in H.
  destruct H as [kv [Hin Hk]].
  destruct (find (fun kv => fst kv =? name) tools) as [[n f]|] eqn:E.
  - apply find_some in E. destruct E as [Hin' Hn]. cbn [fst] in Hn.
    apply String.eqb_eq in Hn. subst n. now exists f.
  - now rewrite (find_none _ _ E kv Hin) in Hk.
Qed.

(** X8.  A well-formed call of one of the six registered tools is answered
    exactly when its arguments bind to the parameter of the function: then
    one result response is printed; otherwise (arguments that are not a
    mapping, an unknown keyword, a missing required argument) the
    [TypeError] of the call is logged, nothing is printed and the backend is
    not touched. *)
Theorem registered_call_answered_iff_arguments_bind (db : Backend.database)
    (items ps : list (string * pyobj)) (name : string) (h : host) :
  lookup "method" items = Some (PStr "tools/call") ->
  lookup "params" items = Some (PDict ps) ->
  lookup "name" ps = Some (PStr name) ->
  registered (mcp_tools db) name = true ->
  let id := match lookup "id" items with Some v => v | None => PNone end in
  let args := match lookup "arguments" ps with
              | Some v => v
              | None => PDict []
              end in
  match bind_kwargs name (parameter_of name) args with
  | Raises e =>
      exn_class e = "TypeError"
      /\ process_request (mcp_tools db) (Encoded (PDict items)) h
         = (Returns tt,
            Host (backend h) (stdout h)
                 (errors h ++ ["Error processing request: " ++ exn_msg e]))
  | Returns _ =>
      exists text w,
        process_request (mcp_tools db) (Encoded (PDict items)) h
        = (Returns tt,
           Host w (stdout h ++ [result_response id text]) (errors h))
  end.
Proof.
  intros Hm Hp Hn Hr id args.
  destruct (registered_find _ _ Hr) as (f & Hf & Hin).
  pose proof (mcp_tool_binding db name f args (backend h) Hin) as Hb.
  rewrite (process_call (mcp_tools db) items ps name h Hm Hp Hn), Hf.
  cbv zeta. fold args id.
  destruct (bind_kwargs name (parameter_of name) args) as [v | e].
  - destruct Hb as (text & w & Hcall). exists text, w. now rewrite Hcall.
  - destruct Hb as [Hcall Hc]. split; [exact Hc|]. now rewrite Hcall.
Qed.

Lemma registered_call_answered_iff_arguments_bind_witness :
  let db := Backend.constant_db "[(1,)]" in
  let h := start db "mysql+pymysql://root:@localhost/mcp_proj1" in
  registered (mcp_tools db) "get_last_query" = true
  /\ process_request (mcp_tools db)
       (Encoded (Client.make_request "get_last_query"
                   (PDict [("verbose", PBool true)]))) h
     = (Returns tt,
        Host (backend h) (stdout h)
          (errors h ++
           ["Error processing request: get_last_query() got an unexpected keyword argument 'verbose'"])).
Proof.
  split; [reflexivity|].
  exact (proj2 (registered_call_answered_iff_arguments_bind
                  (Backend.constant_db "[(1,)]")
                  [("jsonrpc", PStr "2.0"); ("id", PInt 1);
                   ("method", PStr "tools/call");
                   ("params",
                    PDict [("name", PStr "get_last_query");
                           ("arguments", PDict [("verbose", PBool true)])])]
                  [("name", PStr "get_last_query");
                   ("arguments", PDict [("verbose", PBool true)])]
                  "get_last_query"
                  (start (Backend.constant_db "[(1,)]")
                         "mysql+pymysql://root:@localhost/mcp_proj1")
                  eq_refl eq_refl eq_refl eq_refl)).
Defined.

(** X9.  A request whose method is missing or is not tools/call is dropped
    without a trace: nothing is printed, nothing is logged, the backend is
    not touched. *)
Theorem other_methods_are_ignored (tools : list (string * tool))
    (items : list (string * pyobj)) (h : host) :
  (forall m, lookup "method" items = Some m -> is_tools_call m = false) ->
  process_request tools (Encoded (PDict items)) h = (Returns tt, h).
Proof.
  intros H. run_request. destruct (lookup "method" items) as [m|].
  - cbn [fst snd]. now rewrite (H m eq_refl).
  - reflexivity.
Qed.

Lemma other_methods_are_ignored_witness :
  let db := Backend.constant_db "[(1,)]" in
  let h := start db "mysql+pymysql://root:@localhost/mcp_proj1" in
  process_request (mcp_tools db)
    (Encoded (PDict [("jsonrpc", PStr "2.0"); ("id", PInt 7);
                     ("method", PStr "tools/list")])) h
  = (Returns tt, h).
Proof.
  apply (other_methods_are_ignored
           (mcp_tools (Backend.constant_db "[(1,)]"))
           [("jsonrpc", PStr "2.0"); ("id", PInt 7);
            ("method", PStr "tools/list")]).
  intros m H. injection H as <-. reflexivity.
Defined.

(** X10.  A tools/call request without params, or whose params have no
    name, and a line that decodes to something that is not an object, get no
    response: the [KeyError] or the [AttributeError] is logged and the
    backend is not touched. *)
Theorem incomplete_calls_are_logged (tools : list (string * tool))
    (h : host) :
  (forall items,
     lookup "method" items = Some (PStr "tools/call") ->
     lookup "params" items = None ->
     process_request tools (Encoded (PDict items)) h
     = (Returns tt,
        Host (backend h) (stdout h)
             (errors h ++ ["Error processing request: 'params'"])))
  /\ (forall items ps,
        lookup "method" items = Some (PStr "tools/call") ->
        lookup "params" items = Some (PDict ps) ->
        lookup "name" ps = None ->
        process_request tools (Encoded (PDict items)) h
        = (Returns tt,
           Host (backend h) (stdout h)
                (errors h ++ ["Error processing request: 'name'"])))
  /\ (forall v,
        (forall items, v <> PDict items) ->
        process_request tools (Encoded v) h
        = (Returns tt,
           Host (backend h) (stdout h)
                (errors h ++ ["Error processing request: '" ++ type_name v
                                ++ "' object has no attribute 'get'"]))).
Proof.
  split; [|split].
  - intros items Hm Hp. run_request. now rewrite Hm, Hp.
  - intros items ps Hm Hp Hn. run_request. rewrite Hm, Hp. cbn.
    now rewrite Hn.
  - intros v Hv. destruct v; try reflexivity. now destruct (Hv items).
Qed.

Lemma incomplete_calls_are_logged_witness :
  let db := Backend.constant_db "[(1,)]" in
  let h := start db "mysql+pymysql://root:@localhost/mcp_proj1" in
  errors (snd (process_request (mcp_tools db)
                 (Encoded (PDict [("id", PInt 3);
                                  ("method", PStr "tools/call")])) h))
  = ["Error processing request: 'params'"].
Proof.
  intros db h.
  rewrite (proj1 (incomplete_calls_are_logged (mcp_tools db) h)
             [("id", PInt 3); ("method", PStr "tools/call")]
             eq_refl eq_refl).
  reflexivity.
Defined.


(** One request: the output grows by at most one line, the record of the
    dispatcher's own [logger.error] calls by at most one message, never
    both. *)
Lemma process_request_output (tools : list (string * tool)) (line : wire)
    (h : host) :
  let h' := snd (process_request tools line h) in
  (stdout h' = stdout h /\ errors h' = errors h)
  \/ (exists r, stdout h' = (stdout h ++ [r])%list /\ errors h' = errors h)
  \/ (exists m, stdout h' = stdout h /\ errors h' = (errors h ++ [m])%list).
Proof.
  destruct (process_request_cases tools line h)
    as [H | [[m H] | [(id & name & H) | (name & f & args & id & _ & H)]]];
    cbv zeta in *.
  - left. now rewrite H.
  - right. right. exists m. now rewrite H.
  - right. left. eexists. now rewrite H.
  - destruct (f args (backend h)) as [[text | e] w].
    + right. left. eexists. now rewrite H.
    + right. right. eexists. now rewrite H.
Qed.

(** X11.  The host never prints more than one line for a line it reads;
    [process_request] makes its own [logger.error] call only for a request
    for which it prints nothing, and at most once; it never alters what it
    has printed before: after any input, the output is the old output
    followed by at most as many lines as were read.  [errors] holds the
    [logger.error] calls of the methods of [FastMCP] only: a tool or the
    backend may log an error of its own for a request that is answered. *)
Theorem at_most_one_response_per_line (tools : list (string * tool)) :
  (forall line h,
     let h' := snd (process_request tools line h) in
     (stdout h' = stdout h /\ errors h' = errors h)
     \/ (exists r, stdout h' = (stdout h ++ [r])%list
                   /\ errors h' = errors h)
     \/ (exists m, stdout h' = stdout h
                   /\ errors h' = (errors h ++ [m])%list))
  /\ (forall stdin h,
        exists out,
          stdout (snd (run tools stdin h)) = (stdout h ++ out)%list
          /\ length out <= length stdin).
Proof.
  split; [apply process_request_output|].
  induction stdin as [|read rest IH]; intros h.
  - exists []. split; [now rewrite app_nil_r | auto].
  - cbn [run]. unfold bind. rewrite run_step_spec.
    destruct read as [line | e].
    + destruct (not_blank line).
      * destruct (IH (snd (process_request tools line h))) as (out & Ho & Hl).
        destruct (process_request_output tools line h)
          as [[Hs _] | [(r & Hs & _) | (m & Hs & _)]]; cbv zeta in Hs;
          rewrite Ho, Hs.
        -- exists out. split; [reflexivity | cbn; lia].
        -- exists (r :: out). split; [now rewrite <- app_assoc | cbn; lia].
        -- exists out. split; [reflexivity | cbn; lia].
      * destruct (IH h) as (out & Ho & Hl). exists out.
        split; [exact Ho | cbn; lia].
    + destruct (isinstance_exn e "EOFError").
      * exists []. split; [cbn; now rewrite app_nil_r | cbn; lia].
      * destruct (IH (Host (backend h) (stdout h)
                        (errors h ++ ["Error in server loop: " ++ exn_msg e])))
          as (out & Ho & Hl).
        exists out. split; [exact Ho | cbn; lia].
Qed.

(** X12.  When [input()] raises [EOFError] the loop ends and nothing that
    follows is read; when it raises anything else, the exception is logged
    and the loop goes on; a line of white space only is skipped without a
    trace. *)
Theorem run_on_read_failures (tools : list (string * tool))
    (before after : list (outcome wire)) (h : host) :
  no_eof before = true ->
  let h1 := snd (run tools before h) in
  (forall e, isinstance_exn e "EOFError" = true ->
     run tools (before ++ Raises e :: after) h = (Returns tt, h1))
  /\ (forall e, isinstance_exn e "EOFError" = false ->
        run tools (before ++ Raises e :: after) h
        = run tools after
            (Host (backend h1) (stdout h1)
                  (errors h1 ++ ["Error in server loop: " ++ exn_msg e])))
  /\ (forall text why, strip text = EmptyString ->
        run tools (before ++ Returns (Malformed text why) :: after) h
        = run tools after h1).
Proof.
  intros Hne h1. split; [|split].
  - intros e He. rewrite run_app by assumption. fold h1.
    cbn [run]. unfold bind. now rewrite run_step_spec, He.
  - intros e He. rewrite run_app by assumption. fold h1.
    cbn [run]. unfold bind. now rewrite run_step_spec, He.
  - intros text why Hb. rewrite run_app by assumption. fold h1.
    cbn [run]. unfold bind. rewrite run_step_spec.
    cbn [not_blank]. now rewrite Hb.
Qed.

Lemma run_on_read_failures_witness :
  let db := Backend.constant_db "[(1,)]" in
  let h := start db "mysql+pymysql://root:@localhost/mcp_proj1" in
  let call := Returns (Encoded (Client.make_request "test_connection"
                                  (PDict []))) in
  no_eof [call] = true
  /\ stdout (snd (run (mcp_tools db)
                    ([call] ++ Raises (Exn "EOFError" "") :: [call; call]) h))
     = [result_response (PInt 1) "Connection successful: [(1,)]"].
Proof.
  split; [reflexivity|]. intros.
  rewrite (proj1 (run_on_read_failures
             (mcp_tools (Backend.constant_db "[(1,)]"))
             [Returns (Encoded (Client.make_request "test_connection"
                                  (PDict [])))]
             [Returns (Encoded (Client.make_request "test_connection"
                                  (PDict [])));
              Returns (Encoded (Client.make_request "test_connection"
                                  (PDict [])))]
             (start (Backend.constant_db "[(1,)]")
                    "mysql+pymysql://root:@localhost/mcp_proj1")
             eq_refl) (Exn "EOFError" "") eq_refl).
  reflexivity.
Defined.

Lemma mcp_tool_bounded (db : Backend.database) (name : string) (f : tool)
    (args : pyobj) (w : Backend.world) :
  In (name, f) (mcp_tools db) ->
  Backend.bounded w -> Backend.bounded (snd (f args w)).
Proof.
  intros Hin Hw.
  pose proof (fun q => run_query_bounded db q w Hw) as Hq.
  pose proof (fun t => bounded_same_tool _ _ (get_table_info_tool db t w) Hw)
    as Hi.
  pose proof (bounded_same_tool _ _ (get_all_tables_tool db w) Hw) as Ha.
  pose proof (fun t => generate_table_ddl_bounded db t w Hw) as Hd.
  pose proof (fun n => generate_database_schema_bounded db n w Hw) as Hs.
  unfold mcp_tools in Hin. cbn [In] in Hin.
  repeat (destruct Hin as [Heq | Hin];
          [injection Heq as <- <-;
           unfold run_query, get_table_info, get_last_query,
             generate_table_ddl, generate_database_schema,
             test_connection, tool_of;
           match goal with
           | |- context [bind_kwargs ?n ?p args] =>
               destruct (bind_kwargs n p args) as [v | e]; [|exact Hw]
           end|]);
    try contradiction.
  - destruct v; try exact Hw.
    specialize (Hq s). now destruct (Backend.run_query db s w).
  - destruct (truthy v).
    + specialize (Hi (py_str v)).
      now destruct (Backend.get_table_info db (py_str v) w).
    + now destruct (Backend.get_all_tables db w).
  - cbn. exact Hw.
  - specialize (Hd (py_str v)).
    now destruct (Backend.generate_table_ddl db (py_str v) w).
  - match goal with
    | |- context [Backend.generate_database_schema db ?n w] =>
        specialize (Hs n);
        now destruct (Backend.generate_database_schema db n w)
    end.
  - specialize (Hq "SELECT 1 as test").
    now destruct (Backend.run_query db "SELECT 1 as test" w).
Qed.

Lemma process_request_bounded (db : Backend.database) (line : wire)
    (h : host) :
  Backend.bounded (backend h) ->
  Backend.bounded (backend (snd (process_request (mcp_tools db) line h))).
Proof.
  intros Hb.
  destruct (process_request_cases (mcp_tools db) line h)
    as [H | [[m H] | [(id & name & H) | (name & f & args & id & Hin & H)]]];
    cbv zeta in *; try (rewrite H; exact Hb).
  pose proof (mcp_tool_bounded db name f args (backend h) Hin Hb) as Hf.
  destruct (f args (backend h)) as [[text | e] w]; rewrite H; exact Hf.
Qed.

(** X13.  Whatever the host reads after its start, the history of its
    backend never holds more than ten entries. *)
Theorem host_history_stays_bounded (db : Backend.database) (uri : string)
    (stdin : list (outcome wire)) :
  Backend.bounded (backend (snd (run (mcp_tools db) stdin (start db uri)))).
Proof.
  assert (Hstart : Backend.bounded (backend (start db uri))).
  { unfold start.
    pose proof (mcp_tool_bounded db "test_connection" (test_connection db)
                  (PDict []) (Backend.init uri)) as H.
    destruct (test_connection db (PDict []) (Backend.init uri)) as [r w].
    apply H; [cbn; tauto | unfold Backend.bounded; cbn; lia]. }
  revert Hstart. generalize (start db uri).
  induction stdin as [|read rest IH]; intros h Hb; [exact Hb|].
  cbn [run]. unfold bind. rewrite run_step_spec.
  destruct read as [line | e].
  - apply IH. destruct (not_blank line); [|exact Hb].
    now apply process_request_bounded.
  - destruct (isinstance_exn e "EOFError"); [exact Hb|]. now apply IH.
Qed.


(** X14.  [test_connection] has no way to report a failed connection: the
    text it returns always begins with "Connection successful: ", also when
    the test query raises, in which case the error text follows. *)
Theorem test_connection_never_reports_failure (db : Backend.database)
    (w : Backend.world) :
  (forall args,
     match test_connection db args w with
     | (Returns text, _) => startswith "Connection successful: " text = true
     | (Raises e, w') => exn_class e = "TypeError" /\ w' = w
     end)
  /\ (forall e,
        Backend.answer (db (Backend.tick w)) = Raises e ->
        fst (test_connection db (PDict []) w)
        = Returns ("Connection successful: Error executing query: "
                     ++ exn_msg e)).
Proof.
  split.
  - intros args. unfold test_connection, tool_of.
    destruct (bind_kwargs "test_connection" NoParameter args) as [v | e] eqn:E.
    + destruct (Backend.run_query db "SELECT 1 as test" w) as [r w'].
      apply prefix_iff. now exists r.
    + split; [exact (bind_kwargs_raises_type_error _ _ _ _ E) | reflexivity].
  - intros e He. unfold test_connection, tool_of. cbn [bind_kwargs find].
    unfold Backend.run_query. now rewrite He.
Qed.

Lemma test_connection_never_reports_failure_witness :
  let db := Backend.failing_db "Can't connect to MySQL server" in
  let w := Backend.init "mysql+pymysql://root:@localhost/mcp_proj1" in
  Backend.answer (db (Backend.tick w))
  = Raises (Exn "OperationalError" "Can't connect to MySQL server")
  /\ fst (test_connection db (PDict []) w)
     = Returns "Connection successful: Error executing query: Can't connect to MySQL server".
Proof.
  split; [reflexivity|].
  exact (proj2 (test_connection_never_reports_failure
                  (Backend.failing_db "Can't connect to MySQL server")
                  (Backend.init "mysql+pymysql://root:@localhost/mcp_proj1"))
               _ eq_refl).
Defined.

(** X15.  After the tool run_query was called with a query text, the tool
    get_last_query reports that text stripped and the very text that
    run_query returned, and changes nothing; before any query it reports
    None for both. *)
Theorem get_last_query_reports_last_run (db : Backend.database) :
  (forall q w,
     exists text w1,
       run_query db (PDict [("query", PStr q)]) w = (Returns text, w1)
       /\ get_last_query (PDict []) w1
          = (Returns ("Last Query: " ++ strip q ++ LF ++ LF
                        ++ "Result: " ++ text), w1))
  /\ (forall uri,
        get_last_query (PDict []) (Backend.init uri)
        = (Returns ("Last Query: None" ++ LF ++ LF ++ "Result: None"),
           Backend.init uri)).
Proof.
  split; [|reflexivity].
  intros q w. unfold run_query, get_last_query, tool_of.
  change (bind_kwargs "run_query" (Required "query")
            (PDict [("query", PStr q)])) with (@Returns pyobj (PStr q)).
  change (bind_kwargs "get_last_query" NoParameter (PDict []))
    with (@Returns pyobj PNone).
  cbv beta iota.
  pose proof (get_last_query_helper db q w) as H.
  destruct (Backend.run_query db q w) as [text w1]. cbn [fst snd] in H.
  exists text, w1. split; [reflexivity|]. now rewrite H.
Qed.

Lemma unregistered_find (tools : list (string * tool)) (name : string) :
  registered tools name = false ->
  option_map snd (find (fun kv => fst kv =? name) tools) = None.
Proof.
  unfold registered. intros H.
  destruct (find (fun kv => fst kv =? name) tools) as [kv|] eqn:E;
    [|reflexivity].
  apply find_some in E. destruct E as [Hin Hk].
  assert (existsb (fun kv => fst kv =? name) tools = true)
    by (apply existsb_exists; eauto).
  congruence.
Qed.

Lemma read_result_response (id : pyobj) (text : string) :
  Client.read_response (result_response id text)
  = Returns (Client.success (PStr text)).
Proof. reflexivity. Qed.

Lemma read_not_found_response (id name : pyobj) :
  Client.read_response (not_found_response id name)
  = Returns (Client.failure
               (py_str (PDict [("code", PInt (-1));
                               ("message",
                                PStr ("Tool " ++ py_str name
                                        ++ " not found"))]))).
Proof. reflexivity. Qed.

(** What the client makes of a line printed by [process_request]. *)
Lemma printed_response_decodes (tools : list (string * tool)) (line : wire)
    (h : host) (r : pyobj) :
  stdout (snd (process_request tools line h)) = (stdout h ++ [r])%list ->
  exists env, Client.read_response r = Returns env /\ is_str (Client.result env).
Proof.
  intros H.
  assert (Hlast : forall (l : list pyobj) a b, (l ++ [a] = l ++ [b])%list
                                              -> a = b).
  { intros l a b E. apply app_inv_head in E. now injection E. }
  assert (Hsame : forall l : list pyobj, forall a, (l = l ++ [a])%list
                                                   -> False).
  { intros l a E. apply (f_equal (@length _)) in E.
    rewrite length_app in E. cbn in E. lia. }
  destruct (process_request_cases tools line h)
    as [E | [[m E] | [(id & name & E) | (name & f & args & id & _ & E)]]];
    cbv zeta in E.
  - rewrite E in H. now destruct (Hsame _ _ H).
  - rewrite E in H. now destruct (Hsame _ _ H).
  - rewrite E in H. cbn [stdout] in H. apply Hlast in H. subst r.
    rewrite read_not_found_response. eexists. split; [reflexivity|].
    eexists. reflexivity.
  - destruct (f args (backend h)) as [[text | e] w]; rewrite E in H;
      cbn [stdout] in H.
    + apply Hlast in H. subst r. rewrite read_result_response.
      eexists. split; [reflexivity|]. eexists. reflexivity.
    + now destruct (Hsame _ _ H).
Qed.

(** X16.  What the dispatcher encodes, the client decodes: a result
    response decodes to the success whose payload is the text of the tool,
    a not-found response to the failure whose payload is the error object as
    a string, and every line that the host prints decodes, without an
    exception, to an envelope whose payload is a string. *)
Theorem host_output_decodes_at_client (tools : list (string * tool)) :
  (forall id text,
     Client.read_response (result_response id text)
     = Returns (Client.success (PStr text)))
  /\ (forall id name,
        Client.read_response (not_found_response id name)
        = Returns (Client.failure
                     (py_str (PDict [("code", PInt (-1));
                                     ("message",
                                      PStr ("Tool " ++ py_str name
                                              ++ " not found"))]))))
  /\ (forall stdin h r,
        In r (stdout (snd (run tools stdin h))) ->
        In r (stdout h)
        \/ exists env,
             Client.read_response r = Returns env /\ is_str (Client.result env)).
Proof.
  split; [exact read_result_response|].
  split; [exact read_not_found_response|].
  induction stdin as [|read rest IH]; intros h r Hin; [now left|].
  cbn [run] in Hin. unfold bind in Hin. rewrite run_step_spec in Hin.
  destruct read as [line | e].
  - destruct (not_blank line); [|now apply IH].
    destruct (IH _ _ Hin) as [Hold | Hnew]; [|now right].
    destruct (process_request_output tools line h)
      as [[Hs _] | [(r' & Hs & _) | (m & Hs & _)]]; cbv zeta in Hs.
    + left. now rewrite <- Hs.
    + pose proof (printed_response_decodes tools line h r' Hs) as Hd.
      rewrite Hs in Hold. apply in_app_or in Hold.
      destruct Hold as [Hold | [<- | []]]; [now left | now right].
    + left. now rewrite <- Hs.
  - destruct (isinstance_exn e "EOFError"); [now left|].
    destruct (IH _ _ Hin) as [Hold | Hnew]; [now left | now right].
Qed.

Lemma host_output_decodes_at_client_witness :
  let db := Backend.constant_db "[(1,)]" in
  let h := start db "mysql+pymysql://root:@localhost/mcp_proj1" in
  let stdin := [Returns (Encoded (Client.make_request "drop_table"
                                    (PDict [])))] in
  In (not_found_response (PInt 1) (PStr "drop_table"))
     (stdout (snd (run (mcp_tools db) stdin h)))
  /\ exists env,
       Client.read_response (not_found_response (PInt 1) (PStr "drop_table"))
       = Returns env
       /\ is_str (Client.result env).
Proof.
  intros db h stdin.
  assert (Hin : In (not_found_response (PInt 1) (PStr "drop_table"))
                   (stdout (snd (run (mcp_tools db) stdin h))))
    by (now left).
  split; [exact Hin|].
  destruct (proj2 (proj2 (host_output_decodes_at_client (mcp_tools db)))
              stdin h _ Hin) as [[] | H].
  exact H.
Defined.

(** X17.  The request object that [call_tool] builds, given decoded to
    [process_request], and the response object that the host prints, given
    decoded to the response handling of [call_tool].  For a tool outside the
    registry the host prints one response, read as the failure whose payload
    is the error object naming the tool.  For a registered tool whose
    arguments bind, the tool is called once on the arguments of the client,
    the host prints one response under the identifier 1, and that response
    is read as the success whose payload is the very text the tool returned.
    For a registered tool whose arguments do not bind the host prints
    nothing and the backend is untouched.  The pipes between the two
    processes, the JSON text and [readline] with its limit on the length of
    a line are not part of this statement. *)
Theorem call_through_host (db : Backend.database) (name : string)
    (parameters : pyobj) (h : host) :
  let line := Encoded (Client.make_request name parameters) in
  let h' := snd (process_request (mcp_tools db) line h) in
  (registered (mcp_tools db) name = false ->
   exists r,
     stdout h' = (stdout h ++ [r])%list
     /\ Client.read_response r
        = Returns (Client.failure
                     (py_str (PDict [("code", PInt (-1));
                                     ("message",
                                      PStr ("Tool " ++ name
                                              ++ " not found"))]))))
  /\ (registered (mcp_tools db) name = true ->
      exists f,
        In (name, f) (mcp_tools db)
        /\ option_map snd (find (fun kv => fst kv =? name) (mcp_tools db))
           = Some f
        /\ match bind_kwargs name (parameter_of name) parameters with
           | Returns _ =>
               exists text w,
                 f parameters (backend h) = (Returns text, w)
                 /\ h' = Host w (stdout h ++ [result_response (PInt 1) text])
                              (errors h)
                 /\ Client.read_response (result_response (PInt 1) text)
                    = Returns (Client.success (PStr text))
           | Raises e =>
               f parameters (backend h) = (Raises e, backend h)
               /\ stdout h' = stdout h
               /\ backend h' = backend h
           end).
Proof.
  intros line h'. subst line h'. unfold Client.make_request.
  rewrite (process_call (mcp_tools db)
             [("jsonrpc", PStr "2.0"); ("id", PInt 1);
              ("method", PStr "tools/call");
              ("params",
               PDict [("name", PStr name); ("arguments", parameters)])]
             [("name", PStr name); ("arguments", parameters)] name h
             eq_refl eq_refl eq_refl).
  cbn [lookup String.eqb Ascii.eqb Bool.eqb]. split.
  - intros Hr. rewrite (unregistered_find _ _ Hr). eexists.
    split; [reflexivity|]. apply read_not_found_response.
  - intros Hr. destruct (registered_find _ _ Hr) as (f & Hf & Hin).
    rewrite Hf. exists f. split; [exact Hin|]. split; [reflexivity|].
    pose proof (mcp_tool_binding db name f parameters (backend h) Hin) as Hb.
    destruct (bind_kwargs name (parameter_of name) parameters) as [v | e].
    + destruct Hb as (text & w & Hcall). rewrite Hcall.
      exists text, w.
      split; [reflexivity|]. split; [reflexivity|].
      apply read_result_response.
    + destruct Hb as [Hcall _]. rewrite Hcall. now repeat split.
Qed.

Lemma call_through_host_witness :
  let db := Backend.constant_db "[(1,)]" in
  let h := start db "mysql+pymysql://root:@localhost/mcp_proj1" in
  registered (mcp_tools db) "drop_table" = false
  /\ exists r,
       stdout (snd (process_request (mcp_tools db)
                      (Encoded (Client.make_request "drop_table"
                                  (PDict []))) h))
       = (stdout h ++ [r])%list
       /\ Client.read_response r
          = Returns (Client.failure
                       "{'code': -1, 'message': 'Tool drop_table not found'}").
Proof.
  split; [reflexivity|].
  exact (proj1 (call_through_host (Backend.constant_db "[(1,)]")
                  "drop_table" (PDict [])
                  (start (Backend.constant_db "[(1,)]")
                         "mysql+pymysql://root:@localhost/mcp_proj1"))
               eq_refl).
Defined.

End ServerMore.

(** ** More on the client proxy *)

Module ClientMore.
Import PyStr PyStrFacts StripFacts PyObj Wire Eff Client ClientFacts.

(** X18.  [call_tool] does not look at the identifier of a response, nor at
    anything but its error and result fields: two responses that agree on
    these two fields are read alike, so the answer to another request is
    taken for the answer to this one. *)
Theorem read_response_ignores_identifier (a b : list (string * pyobj)) :
  lookup "error" a = lookup "error" b ->
  lookup "result" a = lookup "result" b ->
  read_response (PDict a) = read_response (PDict b).
Proof.
  intros He Hr. unfold read_response.
  cbn [py_contains py_getitem py_get]. now rewrite He, Hr.
Qed.

Lemma read_response_ignores_identifier_witness :
  read_response
    (PDict [("jsonrpc", PStr "2.0"); ("id", PInt 1);
            ("result", PDict [("content", PList [PDict [("text", PStr "a")]])])])
  = read_response
      (PDict [("id", PInt 999);
              ("result",
               PDict [("content", PList [PDict [("text", PStr "a")]])])]).
Proof.
  exact (read_response_ignores_identifier
           [("jsonrpc", PStr "2.0"); ("id", PInt 1);
            ("result", PDict [("content", PList [PDict [("text", PStr "a")]])])]
           [("id", PInt 999);
            ("result", PDict [("content", PList [PDict [("text", PStr "a")]])])]
           eq_refl eq_refl).
Defined.

(** X19.  [start_server] never raises.  It returns true exactly when a
    child was spawned and has not exited by the end of the pause.  It keeps
    the handle whenever a child was spawned, also when it returns false;
    otherwise it leaves the proxy as it was. *)
Theorem start_server_result (l : launch) (self : MCPSQLClient) :
  exists started,
    start_server l self
    = (Returns started,
       match l with
       | Spawned p => Client (server_script_path self) (Some p)
       | _ => self
       end)
    /\ (started = true <-> exists p, l = Spawned p /\ returncode p = None).
Proof.
  unfold start_server, try_except. destruct l as [| e | p]; cbn.
  - exists false. split; [reflexivity|].
    split; [discriminate | intros (p & H & _); discriminate].
  - exists false. split; [reflexivity|].
    split; [discriminate | intros (p & H & _); discriminate].
  - destruct (returncode p) as [rc|] eqn:E.
    + exists false. split; [reflexivity|].
      split; [discriminate|]. intros (q & H & Hq). injection H as <-.
      congruence.
    + exists true. split; [reflexivity|]. split; [|reflexivity].
      intros _. now exists p.
Qed.

Lemma start_server_result_witness :
  fst (start_server (Spawned (live_child (Exchange None (Returns NoData))
                                         (Some (-15)%Z)))
                    (new "server/mcp_server.py"))
  = Returns true.
Proof.
  destruct (start_server_result
              (Spawned (live_child (Exchange None (Returns NoData))
                                   (Some (-15)%Z)))
              (new "server/mcp_server.py")) as (started & Hs & Hiff).
  rewrite Hs. cbn [fst]. f_equal. apply Hiff. eexists. split; reflexivity.
Defined.

(** X20.  [close] fails to return in one case only: a running child that
    does not end within five seconds of SIGTERM and whose pipes stay
    connected after it is killed, where the last wait has no bound and is
    never woken.  In every other case [close] returns or raises.  When it
    returns on a proxy with a handle, the child is known to have ended; and
    it sends no signal to a child that is already known to have ended. *)
Theorem close_blocks_only_on_open_pipes :
  (forall self,
     close self = None
     <-> exists p,
           process self = Some p /\ released p = false
           /\ returncode p = None /\ existsb is_kill (trace p) = false
           /\ term_status p = None /\ pipes_close p = false)
  /\ (forall self self' p,
        process self = Some p ->
        close self = Some (Returns tt, self') ->
        exists p', process self' = Some p' /\ returncode p' <> None)
  /\ (forall self p rc,
        process self = Some p ->
        released p = false ->
        returncode p = Some rc ->
        close self
        = Some (Returns tt,
                Client (server_script_path self)
                       (Some (record (Wait (Some 5%Z)) p)))).
Proof.
  split; [|split].
  - intros self. split.
    + unfold close. destruct (process self) as [p|] eqn:Hp; [|discriminate].
      rewrite close_process_spec.
      destruct (released p) eqn:Hrel; [discriminate|].
      destruct (returncode p) as [rc|] eqn:Hrc; [discriminate|].
      cbv zeta.
      destruct (existsb is_kill (trace p)) eqn:Hk.
      * destruct (pipes_close p); discriminate.
      * destruct (term_status p) as [rc|] eqn:Ht;
          destruct (pipes_close p) eqn:Hpc; try discriminate.
        intros _. now exists p.
    + intros (p & Hp & Hrel & Hrc & Hk & Ht & Hpc).
      rewrite (close_spec_of_process self p Hp), close_process_spec.
      now rewrite Hrel, Hrc, Hk, Ht, Hpc.
  - intros self self' p Hp.
    rewrite (close_spec_of_process self p Hp), close_process_spec.
    destruct (released p) eqn:Hrel; [discriminate|].
    destruct (returncode p) as [rc|] eqn:Hrc.
    + intros E. injection E as <-. eexists. split; [reflexivity|].
      cbn. congruence.
    + cbv zeta.
      destruct (if existsb is_kill (trace p) then Some (kill_status p)
                else term_status p) as [rc|];
        destruct (pipes_close p); try discriminate;
        intros E; injection E as <-; eexists;
        (split; [reflexivity | discriminate]).
  - intros self p rc Hp Hrel Hrc.
    rewrite (close_spec_of_process self p Hp), close_process_spec.
    now rewrite Hrel, Hrc.
Qed.

Lemma close_blocks_only_on_open_pipes_witness :
  let p := clogged_child (Exchange None (Returns NoData)) None in
  let self := Client "server/mcp_server.py" (Some p) in
  (process self = Some p /\ released p = false /\ returncode p = None
   /\ existsb is_kill (trace p) = false /\ term_status p = None
   /\ pipes_close p = false)
  /\ close self = None.
Proof.
  split; [repeat split|].
  apply (proj2 (proj1 close_blocks_only_on_open_pipes
                  (Client "server/mcp_server.py"
                     (Some (clogged_child (Exchange None (Returns NoData))
                                          None))))).
  eexists. repeat split.
Defined.

(** X21.  When the write of the request fails, [call_tool] reads nothing:
    it returns at once the failure made from the exception, and the only
    call made on the handle is the write. *)
Theorem write_failure_skips_read (tool_name : string)
    (parameters : option pyobj) (self : MCPSQLClient) (p : subprocess)
    (e : exn) :
  process self = Some p ->
  on_send (pipes p (exchanges p)) = Some e ->
  let request :=
    make_request tool_name
      (match parameters with Some d => d | None => PDict [] end) in
  exists p',
    call_tool tool_name parameters self
    = (Returns (failure_of e), Client (server_script_path self) (Some p'))
    /\ trace p' = (trace p ++ [Write request])%list
    /\ (isinstance_exn e "JSONDecodeError" = false ->
        failure_of e = failure (exn_msg e)).
Proof.
  intros Hp Hs request.
  rewrite (call_tool_started tool_name parameters self p Hp). cbv zeta.
  rewrite Hs. eexists. split; [reflexivity|]. split; [reflexivity|].
  intros H. unfold failure_of. now rewrite H.
Qed.

Lemma write_failure_skips_read_witness :
  let self := Client "server/mcp_server.py" (Some dead_child) in
  (process self = Some dead_child
   /\ on_send (pipes dead_child (exchanges dead_child))
      = Some (Exn "ConnectionResetError" "Connection lost"))
  /\ option_map trace (process (snd (call_tool "get_last_query" None self)))
     = Some [Write (make_request "get_last_query" (PDict []))].
Proof.
  split; [split; reflexivity|].
  destruct (write_failure_skips_read "get_last_query" None
              (Client "server/mcp_server.py" (Some dead_child)) dead_child
              _ eq_refl eq_refl) as (p' & Hcall & Htrace & _).
  rewrite Hcall. cbn [snd process option_map]. now rewrite Htrace.
Defined.

Lemma clean_queries_spec (queries cleaned : list string) :
  NoDup cleaned ->
  NoDup (clean_queries queries cleaned)
  /\ (forall x, In x (clean_queries queries cleaned) ->
        In x cleaned
        \/ exists q, In q queries
                     /\ 10 < String.length (strip q)
                     /\ x = strip (rstrip_semicolons (strip q))).
Proof.
  revert cleaned. induction queries as [|q queries IH]; intros cleaned Hnd;
    cbn [clean_queries].
  - split; [exact Hnd | now left].
  - destruct (nonempty (strip q) && Nat.ltb 10 (String.length (strip q)))
      eqn:E.
    + apply andb_true_iff in E. destruct E as [_ Hlen].
      apply Nat.ltb_lt in Hlen.
      destruct (existsb (String.eqb (strip (rstrip_semicolons (strip q))))
                  cleaned) eqn:Hin.
      * destruct (IH cleaned Hnd) as [H1 H2]. split; [exact H1|].
        intros x Hx. destruct (H2 x Hx) as [Hc | (q' & Hq' & Hrest)];
          [now left|]. right. exists q'. split; [now right | exact Hrest].
      * assert (Hnd' : NoDup (cleaned
                                ++ [strip (rstrip_semicolons (strip q))])).
        { apply NoDup_app; [exact Hnd | repeat constructor; intros [] |].
          intros x Hx [Heq | []]. subst x.
          assert (existsb (String.eqb (strip (rstrip_semicolons (strip q))))
                    cleaned = true).
          { apply existsb_exists. eexists. split; [exact Hx|].
            apply String.eqb_refl. }
          congruence. }
        destruct (IH _ Hnd') as [H1 H2]. split; [exact H1|].
        intros x Hx. destruct (H2 x Hx) as [Hc | (q' & Hq' & Hrest)].
        -- apply in_app_or in Hc. destruct Hc as [Hc | [<- | []]];
             [now left|]. right. exists q. split; [now left | auto].
        -- right. exists q'. split; [now right | exact Hrest].
    + destruct (IH cleaned Hnd) as [H1 H2]. split; [exact H1|].
      intros x Hx. destruct (H2 x Hx) as [Hc | (q' & Hq' & Hrest)];
        [now left|]. right. exists q'. split; [now right | exact Hrest].
Qed.

(** X22.  The clean-up of [extract_sql_queries] never returns a query
    twice; each query it returns has no white space around it and comes
    from a match that, stripped, has more than ten characters, by removing
    the semicolons at its end and stripping again. *)
Theorem cleaned_queries_are_distinct (queries : list string) :
  NoDup (clean_queries queries [])
  /\ (forall x, In x (clean_queries queries []) ->
        strip x = x
        /\ exists q, In q queries
                     /\ 10 < String.length (strip q)
                     /\ x = strip (rstrip_semicolons (strip q))).
Proof.
  destruct (clean_queries_spec queries [] (NoDup_nil _)) as [H1 H2].
  split; [exact H1|]. intros x Hx.
  destruct (H2 x Hx) as [[] | (q & Hq & Hlen & ->)].
  split; [apply strip_idempotent | now exists q].
Qed.


Lemma cleaned_queries_are_distinct_witness :
  let queries := ["SELECT * FROM inventory;"; " SELECT * FROM inventory ";
                  "SHOW"] in
  In "SELECT * FROM inventory" (clean_queries queries [])
  /\ strip "SELECT * FROM inventory" = "SELECT * FROM inventory".
Proof.
  intros queries.
  assert (H : In "SELECT * FROM inventory" (clean_queries queries []))
    by (now left).
  split; [exact H|].
  exact (proj1 (proj2 (cleaned_queries_are_distinct queries) _ H)).
Defined.

End ClientMore.
